(** * SimpleRenderer: a shallow embedding of [babylon_native_simple.cpp]

    The C++ class [SimpleRenderer] (header [babylon_native_simple.hpp]) is
    embedded as a record of its data members together with one Rocq
    definition per member function.  Member functions run in a small monad
    that threads the renderer object and collects the calls made to the
    outside world (console output, Direct3D, OpenGL).

    Numbers.  The C++ type [float] is modelled by the real numbers [R]:
    arithmetic is exact, there is no rounding, no infinity and no NaN.
    Where rounding, overflow or NaN decide a property, the statements of the
    source concerned are evaluated in IEEE 754 binary32 as well (module
    [F32] and the definitions that follow it).
    [uint32_t] and [uint64_t] values are integers of [Z]; the only arithmetic
    the code performs on them, [frame_count++], has its wrap-around modulo
    [2^64] written out.  [size_t] indices, which are only compared, are [nat].

    Outside world.  What the class obtains from its environment is an input
    of the model: the value returned by [rand()], the readings of
    [std::chrono::high_resolution_clock], the results of the Direct3D calls,
    the constant [RAND_MAX] and whether [_WIN32] is defined. *)

From Stdlib Require Import Reals Lra ZArith Lia.
From Stdlib Require Floats.SpecFloat.
From stdpp Require Import base list strings.

Local Open Scope Z_scope.
Local Open Scope R_scope.

(** ** Data members *)

(** [float v[3]] *)
Record float3 : Type := Float3 { at0 : R; at1 : R; at2 : R }.

(** [struct Cube] *)
Module Cube.
Record t : Type := mk {
  x : R;
  y : R;
  z : R;
  size : R;
  color : float3;
  rotation_speed : R;
  animation_time : R
}.

Definition set_position (x' y' z' : R) (c : t) : t :=
  mk x' y' z' (size c) (color c) (rotation_speed c) (animation_time c).
End Cube.

(** [class SimpleRenderer].  Pointers ([HWND], [ID3D11Device*], ...) are
    integers, [0] being [nullptr]; they exist only when [_WIN32] is defined
    and are inert otherwise.  [last_time] is not a data member: it is the
    function-local [static] of [render_frame], [None] until the block that
    declares it is entered for the first time.  In the source it is shared
    by all the renderers of the process; the model follows one renderer, in
    a process where no other renderer renders. *)
Record SimpleRenderer : Type := mkRenderer {
  width : Z;
  height : Z;
  frame_count : Z;
  clear_color : float3;
  native_rendering_enabled : bool;
  cubes : list Cube.t;
  animation_time : R;
  camera_orbit_angle : R;
  camera_distance : R;
  camera_height : R;
  animation_enabled : bool;
  directx_initialized : bool;
  window_handle : Z;
  d3d_device : Z;
  d3d_context : Z;
  swap_chain : Z;
  last_time : option R
}.

Definition set_size (w h : Z) (s : SimpleRenderer) : SimpleRenderer :=
  mkRenderer w h (frame_count s) (clear_color s)
    (native_rendering_enabled s) (cubes s) (animation_time s)
    (camera_orbit_angle s) (camera_distance s) (camera_height s)
    (animation_enabled s) (directx_initialized s) (window_handle s)
    (d3d_device s) (d3d_context s) (swap_chain s) (last_time s).

Definition set_frame_count (n : Z) (s : SimpleRenderer) : SimpleRenderer :=
  mkRenderer (width s) (height s) n (clear_color s)
    (native_rendering_enabled s) (cubes s) (animation_time s)
    (camera_orbit_angle s) (camera_distance s) (camera_height s)
    (animation_enabled s) (directx_initialized s) (window_handle s)
    (d3d_device s) (d3d_context s) (swap_chain s) (last_time s).

Definition set_clear_color_field (c : float3) (s : SimpleRenderer) : SimpleRenderer :=
  mkRenderer (width s) (height s) (frame_count s) c
    (native_rendering_enabled s) (cubes s) (animation_time s)
    (camera_orbit_angle s) (camera_distance s) (camera_height s)
    (animation_enabled s) (directx_initialized s) (window_handle s)
    (d3d_device s) (d3d_context s) (swap_chain s) (last_time s).

Definition set_native_rendering_enabled (b : bool) (s : SimpleRenderer) : SimpleRenderer :=
  mkRenderer (width s) (height s) (frame_count s) (clear_color s)
    b (cubes s) (animation_time s)
    (camera_orbit_angle s) (camera_distance s) (camera_height s)
    (animation_enabled s) (directx_initialized s) (window_handle s)
    (d3d_device s) (d3d_context s) (swap_chain s) (last_time s).

Definition set_cubes (l : list Cube.t) (s : SimpleRenderer) : SimpleRenderer :=
  mkRenderer (width s) (height s) (frame_count s) (clear_color s)
    (native_rendering_enabled s) l (animation_time s)
    (camera_orbit_angle s) (camera_distance s) (camera_height s)
    (animation_enabled s) (directx_initialized s) (window_handle s)
    (d3d_device s) (d3d_context s) (swap_chain s) (last_time s).

Definition set_animation_time (t : R) (s : SimpleRenderer) : SimpleRenderer :=
  mkRenderer (width s) (height s) (frame_count s) (clear_color s)
    (native_rendering_enabled s) (cubes s) t
    (camera_orbit_angle s) (camera_distance s) (camera_height s)
    (animation_enabled s) (directx_initialized s) (window_handle s)
    (d3d_device s) (d3d_context s) (swap_chain s) (last_time s).

Definition set_camera_orbit_angle (a : R) (s : SimpleRenderer) : SimpleRenderer :=
  mkRenderer (width s) (height s) (frame_count s) (clear_color s)
    (native_rendering_enabled s) (cubes s) (animation_time s)
    a (camera_distance s) (camera_height s)
    (animation_enabled s) (directx_initialized s) (window_handle s)
    (d3d_device s) (d3d_context s) (swap_chain s) (last_time s).

Definition set_camera_distance (d : R) (s : SimpleRenderer) : SimpleRenderer :=
  mkRenderer (width s) (height s) (frame_count s) (clear_color s)
    (native_rendering_enabled s) (cubes s) (animation_time s)
    (camera_orbit_angle s) d (camera_height s)
    (animation_enabled s) (directx_initialized s) (window_handle s)
    (d3d_device s) (d3d_context s) (swap_chain s) (last_time s).

Definition set_camera_height (h : R) (s : SimpleRenderer) : SimpleRenderer :=
  mkRenderer (width s) (height s) (frame_count s) (clear_color s)
    (native_rendering_enabled s) (cubes s) (animation_time s)
    (camera_orbit_angle s) (camera_distance s) h
    (animation_enabled s) (directx_initialized s) (window_handle s)
    (d3d_device s) (d3d_context s) (swap_chain s) (last_time s).

Definition set_animation_enabled (b : bool) (s : SimpleRenderer) : SimpleRenderer :=
  mkRenderer (width s) (height s) (frame_count s) (clear_color s)
    (native_rendering_enabled s) (cubes s) (animation_time s)
    (camera_orbit_angle s) (camera_distance s) (camera_height s)
    b (directx_initialized s) (window_handle s)
    (d3d_device s) (d3d_context s) (swap_chain s) (last_time s).

Definition set_directx_initialized (b : bool) (s : SimpleRenderer) : SimpleRenderer :=
  mkRenderer (width s) (height s) (frame_count s) (clear_color s)
    (native_rendering_enabled s) (cubes s) (animation_time s)
    (camera_orbit_angle s) (camera_distance s) (camera_height s)
    (animation_enabled s) b (window_handle s)
    (d3d_device s) (d3d_context s) (swap_chain s) (last_time s).

Definition set_window_handle_field (h : Z) (s : SimpleRenderer) : SimpleRenderer :=
  mkRenderer (width s) (height s) (frame_count s) (clear_color s)
    (native_rendering_enabled s) (cubes s) (animation_time s)
    (camera_orbit_angle s) (camera_distance s) (camera_height s)
    (animation_enabled s) (directx_initialized s) h
    (d3d_device s) (d3d_context s) (swap_chain s) (last_time s).

Definition set_d3d_objects (chain device context : Z) (s : SimpleRenderer) : SimpleRenderer :=
  mkRenderer (width s) (height s) (frame_count s) (clear_color s)
    (native_rendering_enabled s) (cubes s) (animation_time s)
    (camera_orbit_angle s) (camera_distance s) (camera_height s)
    (animation_enabled s) (directx_initialized s) (window_handle s)
    device context chain (last_time s).

Definition set_last_time (t : R) (s : SimpleRenderer) : SimpleRenderer :=
  mkRenderer (width s) (height s) (frame_count s) (clear_color s)
    (native_rendering_enabled s) (cubes s) (animation_time s)
    (camera_orbit_angle s) (camera_distance s) (camera_height s)
    (animation_enabled s) (directx_initialized s) (window_handle s)
    (d3d_device s) (d3d_context s) (swap_chain s) (Some t).

(** ** The outside world *)

(** One constructor per line the class writes to [std::cout]. *)
Inductive console_line : Type :=
| SayCreated (w h : Z)
| SayDestroyed
| SayNativeFrame (frame : Z) (ncubes : nat)
| SayInitializing (frame : Z)
| SayFallbackFrame (frame : Z) (ncubes : nat)
| SayResized (w h : Z)
| SayClearColor (r g b : R)
| SayAddedCube (x y z size : R)
| SayNativeEnabled
| SayDeviceCreated
| SayWindowHandleSet
| SayNoWindowHandle
| SayD3D11Created
| SayD3D11Failed (hr : Z)
| SayCameraOrbit (angle distance height : R)
| SayAnimation (enabled : bool)
| SayMoved (index : nat) (x y z : R).

(** Calls on the Direct3D 11 objects. *)
Inductive d3d_call : Type :=
| GetBuffer
| CreateRenderTargetView
| ClearRenderTargetView (r g b a : R)
| OMSetRenderTargets
| Present (sync_interval flags : Z)
| ReleaseRenderTarget
| ReleaseBackBuffer
| ReleaseSwapChain
| ReleaseContext
| ReleaseDevice.

(** Calls of the OpenGL immediate mode. *)
Inductive gl_call : Type :=
| glClearColor (r g b a : R)
| glClear
| glPushMatrix
| glTranslatef (x y z : R)
| glScalef (x y z : R)
| glColor3f (r g b : R)
| glBegin_LINES
| glVertex3f (x y z : R)
| glEnd
| glPopMatrix.

Inductive effect : Type :=
| Cout (l : console_line)
| D3D (c : d3d_call)
| GL (c : gl_call).

(** What one call of [render_frame] reads from its environment: the clock
    ([clock_init] is the reading taken by the initialiser of the static
    [last_time], consumed only the first time; [clock_now] is
    [current_time]) and the objects handed out by [GetBuffer] and
    [CreateRenderTargetView]. *)
Record frame_inputs : Type := FrameInputs {
  clock_init : R;
  clock_now : R;
  back_buffer : Z;
  render_target : Z
}.

(** What [D3D11CreateDeviceAndSwapChain] returns: the [HRESULT] and the three
    out-parameters. *)
Record d3d_create_result : Type := D3DCreate {
  hr : Z;
  out_swap_chain : Z;
  out_device : Z;
  out_context : Z
}.

(** [SUCCEEDED(hr)] *)
Definition SUCCEEDED (hr : Z) : bool := (0 <=? hr)%Z.

(** ** The monad of member functions *)

Definition M (A : Type) : Type :=
  SimpleRenderer -> A * SimpleRenderer * list effect.

Definition ret {A : Type} (a : A) : M A := fun s => (a, s, []).

Definition bind {A B : Type} (m : M A) (f : A -> M B) : M B :=
  fun s =>
    let r1 := m s in
    let r2 := f (r1.1.1) (r1.1.2) in
    (r2.1.1, r2.1.2, r1.2 ++ r2.2).

Definition get : M SimpleRenderer := fun s => (s, s, []).

Definition modify (f : SimpleRenderer -> SimpleRenderer) : M unit :=
  fun s => (tt, f s, []).

Definition emit (e : effect) : M unit := fun s => (tt, s, [e]).

Definition emit_all (l : list effect) : M unit := fun s => (tt, s, l).

Definition cout (l : console_line) : M unit := emit (Cout l).

Declare Scope renderer_scope.
Delimit Scope renderer_scope with M.
Notation "x <- m ;; k" := (bind m (fun x => k))
  (at level 100, m at next level, k at level 200, right associativity,
   only parsing) : renderer_scope.
Notation "m ;; k" := (bind m (fun _ => k))
  (at level 100, k at level 200, right associativity) : renderer_scope.

(** The three components of a run. *)
Definition result {A : Type} (r : A * SimpleRenderer * list effect) : A := r.1.1.
Definition state {A : Type} (r : A * SimpleRenderer * list effect) : SimpleRenderer := r.1.2.
Definition output {A : Type} (r : A * SimpleRenderer * list effect) : list effect := r.2.

(** The comparison [a > b] of two [float]s, as a test. *)
#[global] Instance Rgt_decision (a b : R) : Decision (a > b) := Rgt_dec a b.

Definition when (b : bool) (m : M unit) : M unit := if b then m else ret tt.

(** [uint64_t] arithmetic: the value kept is the residue modulo [2^64]. *)
Definition wrap64 (n : Z) : Z := (n mod 2 ^ 64)%Z.

(** The three branches of the [if]/[else if]/[else] that ends [render_frame]. *)
Inductive render_path : Type := NativeDevice | NativePending | Fallback.

(** ** Member functions *)

Section Renderer.

(** [#ifdef _WIN32] *)
Variable win32 : bool.
(** [RAND_MAX] of [<cstdlib>] *)
Variable RAND_MAX : Z.

Local Open Scope renderer_scope.

(** Default member initialisers of the class, then the member initialiser
    list [width(w), height(h)] and, under [_WIN32], the four [nullptr]
    assignments of the constructor body. *)
Definition member_init (w h : Z) : SimpleRenderer :=
  mkRenderer w h 0%Z (Float3 0.1 0.1 0.15) false [] 0 0 10 5 true false
    0%Z 0%Z 0%Z 0%Z None.

(** [SimpleRenderer::add_cube]; [r] is what [rand()] returns. *)
Definition add_cube (x y z size : R) (r : Z) : M unit :=
  let cube :=
    Cube.mk x y z size (Float3 1 0 0)
      (1 + (IZR r / IZR RAND_MAX) * 2) 0 in
  modify (fun s => set_cubes (cubes s ++ [cube]) s) ;;
  cout (SayAddedCube x y z size).

(** Body of [SimpleRenderer::SimpleRenderer]. *)
Definition constructor (w h : Z) (r : Z) : M unit :=
  cout (SayCreated w h) ;;
  add_cube 0 0 0 1 r.

(** [create_simple_renderer]: the object after construction. *)
Definition create_simple_renderer (w h : Z) (r : Z) : SimpleRenderer :=
  state (constructor w h r (member_init w h)).

(** [SimpleRenderer::~SimpleRenderer] *)
Definition destructor : M unit :=
  cout SayDestroyed ;;
  s <- get ;;
  when win32
    (when (negb (swap_chain s =? 0)%Z) (emit (D3D ReleaseSwapChain)) ;;
     when (negb (d3d_context s =? 0)%Z) (emit (D3D ReleaseContext)) ;;
     when (negb (d3d_device s =? 0)%Z) (emit (D3D ReleaseDevice))).

(** Body of the loop of [update_animation], for one cube. *)
Definition update_cube (delta_time : R) (cube : Cube.t) : Cube.t :=
  let t := Cube.animation_time cube + delta_time * Cube.rotation_speed cube in
  let base_y := Cube.y cube in
  Cube.mk (Cube.x cube) (base_y + sin t * 0.5) (Cube.z cube) (Cube.size cube)
    (Float3 (0.5 + 0.5 * sin t)
            (0.5 + 0.5 * sin (t + 2.094))
            (0.5 + 0.5 * sin (t + 4.188)))
    (Cube.rotation_speed cube) t.

(** [SimpleRenderer::update_animation] *)
Definition update_animation (delta_time : R) : M unit :=
  modify (fun s => set_animation_time (animation_time s + delta_time) s) ;;
  modify (fun s =>
    set_camera_orbit_angle (camera_orbit_angle s + delta_time * 0.5) s) ;;
  s <- get ;;
  when (bool_decide (camera_orbit_angle s > 2 * 3.14159))
    (modify (set_camera_orbit_angle (camera_orbit_angle s - 2 * 3.14159))) ;;
  modify (fun s => set_cubes (map (update_cube delta_time) (cubes s)) s).

(** The block [if (animation_enabled) { ... }] of [render_frame]: measure
    the time elapsed since [last_time] and step the animation. *)
Definition animate_frame (inp : frame_inputs) : M unit :=
  s <- get ;;
  when (animation_enabled s)
    (let last := default (clock_init inp) (last_time s) in
     let current_time := clock_now inp in
     let delta_time := current_time - last in
     modify (set_last_time current_time) ;;
     update_animation delta_time).

(** First branch of [render_frame]: Direct3D. *)
Definition render_native (inp : frame_inputs) : M unit :=
  s <- get ;;
  when win32
    (when (negb (d3d_context s =? 0)%Z && negb (swap_chain s =? 0)%Z)
      (emit (D3D GetBuffer) ;;
       emit (D3D CreateRenderTargetView) ;;
       emit (D3D (ClearRenderTargetView
                    (at0 (clear_color s)) (at1 (clear_color s))
                    (at2 (clear_color s)) 1)) ;;
       emit (D3D OMSetRenderTargets) ;;
       emit (D3D (Present 1 0)) ;;
       when (negb (render_target inp =? 0)%Z) (emit (D3D ReleaseRenderTarget)) ;;
       when (negb (back_buffer inp =? 0)%Z) (emit (D3D ReleaseBackBuffer)))) ;;
  when (frame_count s mod 60 =? 0)%Z
    (cout (SayNativeFrame (frame_count s) (length (cubes s)))).

(** Second branch: native rendering requested, device not there. *)
Definition render_pending : M unit :=
  s <- get ;;
  when (frame_count s mod 60 =? 0)%Z (cout (SayInitializing (frame_count s))).

(** The twelve edges drawn between [glBegin(GL_LINES)] and [glEnd()]. *)
Definition wireframe_edges : list gl_call :=
  [ glVertex3f (-0.5) (-0.5) 0.5; glVertex3f 0.5 (-0.5) 0.5;
    glVertex3f 0.5 (-0.5) 0.5; glVertex3f 0.5 0.5 0.5;
    glVertex3f 0.5 0.5 0.5; glVertex3f (-0.5) 0.5 0.5;
    glVertex3f (-0.5) 0.5 0.5; glVertex3f (-0.5) (-0.5) 0.5;
    glVertex3f (-0.5) (-0.5) (-0.5); glVertex3f 0.5 (-0.5) (-0.5);
    glVertex3f 0.5 (-0.5) (-0.5); glVertex3f 0.5 0.5 (-0.5);
    glVertex3f 0.5 0.5 (-0.5); glVertex3f (-0.5) 0.5 (-0.5);
    glVertex3f (-0.5) 0.5 (-0.5); glVertex3f (-0.5) (-0.5) (-0.5);
    glVertex3f (-0.5) (-0.5) 0.5; glVertex3f (-0.5) (-0.5) (-0.5);
    glVertex3f 0.5 (-0.5) 0.5; glVertex3f 0.5 (-0.5) (-0.5);
    glVertex3f 0.5 0.5 0.5; glVertex3f 0.5 0.5 (-0.5);
    glVertex3f (-0.5) 0.5 0.5; glVertex3f (-0.5) 0.5 (-0.5) ].

(** Body of the loop over [cubes] in the fallback branch. *)
Definition draw_cube (cube : Cube.t) : list effect :=
  map GL
    ([ glPushMatrix;
       glTranslatef (Cube.x cube) (Cube.y cube) (Cube.z cube);
       glScalef (Cube.size cube) (Cube.size cube) (Cube.size cube);
       glColor3f (at0 (Cube.color cube)) (at1 (Cube.color cube))
                 (at2 (Cube.color cube));
       glBegin_LINES ]
     ++ wireframe_edges ++ [ glEnd; glPopMatrix ]).

(** Third branch: OpenGL. *)
Definition render_fallback : M unit :=
  s <- get ;;
  emit (GL (glClearColor (at0 (clear_color s)) (at1 (clear_color s))
                         (at2 (clear_color s)) 1)) ;;
  emit (GL glClear) ;;
  emit_all (flat_map draw_cube (cubes s)) ;;
  when (frame_count s mod 60 =? 0)%Z
    (cout (SayFallbackFrame (frame_count s) (length (cubes s)))).

(** [SimpleRenderer::render_frame] *)
Definition render_frame (inp : frame_inputs) : M bool :=
  modify (fun s => set_frame_count (wrap64 (frame_count s + 1)) s) ;;
  animate_frame inp ;;
  s <- get ;;
  (if native_rendering_enabled s && directx_initialized s then
     render_native inp
   else if native_rendering_enabled s then
     render_pending
   else
     render_fallback) ;;
  ret true.

(** [SimpleRenderer::resize] *)
Definition resize (w h : Z) : M unit :=
  modify (set_size w h) ;;
  cout (SayResized w h).

(** [SimpleRenderer::set_clear_color] *)
Definition set_clear_color (r g b : R) : M unit :=
  modify (set_clear_color_field (Float3 r g b)) ;;
  cout (SayClearColor r g b).

(** [SimpleRenderer::set_window_handle] *)
Definition set_window_handle (handle : Z) : M unit :=
  when win32
    (modify (set_window_handle_field handle) ;;
     cout SayWindowHandleSet).

(** [SimpleRenderer::initialize_d3d11]; [d] is what
    [D3D11CreateDeviceAndSwapChain] returns when it is called. *)
Definition initialize_d3d11 (d : d3d_create_result) : M bool :=
  if win32 then
    s <- get ;;
    if (window_handle s =? 0)%Z then
      cout SayNoWindowHandle ;;
      ret false
    else
      modify (set_d3d_objects (out_swap_chain d) (out_device d) (out_context d)) ;;
      if SUCCEEDED (hr d) then
        cout SayD3D11Created ;;
        ret true
      else
        cout (SayD3D11Failed (hr d)) ;;
        ret false
  else
    ret false.

(** [SimpleRenderer::enable_native_rendering] *)
Definition enable_native_rendering (d : d3d_create_result) : M unit :=
  modify (set_native_rendering_enabled true) ;;
  cout SayNativeEnabled ;;
  ok <- initialize_d3d11 d ;;
  if ok : bool then
    modify (set_directx_initialized true) ;;
    cout SayDeviceCreated
  else
    modify (set_native_rendering_enabled false).

(** [SimpleRenderer::get_frame_count] *)
Definition get_frame_count (s : SimpleRenderer) : Z := frame_count s.

(** [SimpleRenderer::get_renderer_info] *)
Definition get_renderer_info (s : SimpleRenderer) : string :=
  if native_rendering_enabled s && directx_initialized s then
    "Native DirectX C++ Renderer (Animated)"%string
  else if native_rendering_enabled s then
    "Native DirectX C++ Renderer (Initializing...)"%string
  else
    "OpenGL Fallback C++ Renderer"%string.

(** [SimpleRenderer::set_camera_orbit] *)
Definition set_camera_orbit (angle distance height : R) : M unit :=
  modify (set_camera_orbit_angle angle) ;;
  modify (set_camera_distance distance) ;;
  modify (set_camera_height height) ;;
  cout (SayCameraOrbit angle distance height).

(** [SimpleRenderer::toggle_animation] *)
Definition toggle_animation : M unit :=
  modify (fun s => set_animation_enabled (negb (animation_enabled s)) s) ;;
  s <- get ;;
  cout (SayAnimation (animation_enabled s)).

(** [SimpleRenderer::move_object] *)
Definition move_object (index : nat) (x y z : R) : M unit :=
  s <- get ;;
  when (index <? length (cubes s))%nat
    (modify (fun s =>
       set_cubes (alter (Cube.set_position x y z) index (cubes s)) s) ;;
     cout (SayMoved index x y z)).

End Renderer.

(** ** The interface offered to the host

    One constructor per bridge function that takes the renderer by mutable
    reference; the arguments coming from the environment ride along. *)
Inductive call : Type :=
| RenderFrame (inp : frame_inputs)
| Resize (w h : Z)
| SetClearColor (r g b : R)
| AddCube (x y z size : R) (r : Z)
| EnableNativeRendering (d : d3d_create_result)
| SetWindowHandle (handle : Z)
| InitializeD3D11 (d : d3d_create_result)
| UpdateAnimation (delta_time : R)
| SetCameraOrbit (angle distance height : R)
| ToggleAnimation
| MoveObject (index : nat) (x y z : R).

Section Host.

Variable win32 : bool.
Variable RAND_MAX : Z.

Local Open Scope renderer_scope.

Definition perform (c : call) : M unit :=
  match c with
  | RenderFrame inp => render_frame win32 inp ;; ret tt
  | Resize w h => resize w h
  | SetClearColor r g b => set_clear_color r g b
  | AddCube x y z size r => add_cube RAND_MAX x y z size r
  | EnableNativeRendering d => enable_native_rendering win32 d
  | SetWindowHandle handle => set_window_handle win32 handle
  | InitializeD3D11 d => initialize_d3d11 win32 d ;; ret tt
  | UpdateAnimation delta_time => update_animation delta_time
  | SetCameraOrbit angle distance height => set_camera_orbit angle distance height
  | ToggleAnimation => toggle_animation
  | MoveObject index x y z => move_object index x y z
  end.

(** [rand()] returns a value between [0] and [RAND_MAX]. *)
Definition rand_value (r : Z) : Prop := (0 <= r <= RAND_MAX)%Z.

Definition call_ok (c : call) : Prop :=
  match c with
  | AddCube _ _ _ _ r => rand_value r
  | _ => True
  end.

(** The renderers a host can obtain: constructed, then driven through the
    interface. *)
Inductive reachable : SimpleRenderer -> Prop :=
| reachable_create w h r :
    rand_value r -> reachable (create_simple_renderer RAND_MAX w h r)
| reachable_call s c :
    reachable s -> call_ok c -> reachable (state (perform c s)).

End Host.

(** Successive frames. *)
Fixpoint render_frames (win32 : bool) (inps : list frame_inputs)
    (s : SimpleRenderer) : SimpleRenderer :=
  match inps with
  | [] => s
  | inp :: inps' => render_frames win32 inps' (state (render_frame win32 inp s))
  end.

(** Successive executions of the animation block of [render_frame]. *)
Fixpoint animate_frames (inps : list frame_inputs)
    (s : SimpleRenderer) : SimpleRenderer :=
  match inps with
  | [] => s
  | inp :: inps' => animate_frames inps' (state (animate_frame inp s))
  end.

(** Successive direct calls of [update_animation]. *)
Fixpoint update_animations (deltas : list R) (s : SimpleRenderer) : SimpleRenderer :=
  match deltas with
  | [] => s
  | d :: deltas' => update_animations deltas' (state (update_animation d s))
  end.

(** The [delta_time] that the animation block of [render_frame] measures. *)
Definition frame_delta_time (inp : frame_inputs) (s : SimpleRenderer) : R :=
  clock_now inp - default (clock_init inp) (last_time s).

(** The statement [frame_count++] that opens [render_frame]. *)
Definition count_frame : M unit :=
  modify (fun s => set_frame_count (wrap64 (frame_count s + 1)) s).

(** The code of each branch of [render_frame]. *)
Definition render_path_body (win32 : bool) (inp : frame_inputs)
    (p : render_path) : M unit :=
  match p with
  | NativeDevice => render_native win32 inp
  | NativePending => render_pending
  | Fallback => render_fallback
  end.

(** The branch an effect can come from: Direct3D calls and the line
    [SayNativeFrame] occur in the first branch only, [SayInitializing] in the
    second, OpenGL calls and [SayFallbackFrame] in the third; the other
    console lines are written by other member functions. *)
Definition effect_path (e : effect) : option render_path :=
  match e with
  | D3D _ => Some NativeDevice
  | Cout (SayNativeFrame _ _) => Some NativeDevice
  | Cout (SayInitializing _) => Some NativePending
  | GL _ => Some Fallback
  | Cout (SayFallbackFrame _ _) => Some Fallback
  | Cout _ => None
  end.

(** The dispatch table in the words of the specification: (true, true) is
    the native-device path, (true, false) the native-pending path and
    (false, anything) the fallback path. *)
Definition spec_render_path (nativeRequested nativeReady : bool) : render_path :=
  match nativeRequested, nativeReady with
  | true, true => NativeDevice
  | true, false => NativePending
  | false, _ => Fallback
  end.

(** ** Runs of calls and what is counted in them *)

(** A run of successive calls of the interface. *)
Fixpoint perform_all (win32 : bool) (RAND_MAX : Z) (cs : list call)
    (s : SimpleRenderer) : SimpleRenderer :=
  match cs with
  | [] => s
  | c :: cs' => perform_all win32 RAND_MAX cs' (state (perform win32 RAND_MAX c s))
  end.

Definition is_render_frame (c : call) : bool :=
  match c with RenderFrame _ => true | _ => false end.

Definition is_add_cube (c : call) : bool :=
  match c with AddCube _ _ _ _ _ => true | _ => false end.

Definition is_console (e : effect) : bool :=
  match e with Cout _ => true | _ => false end.

Definition is_vertex (e : effect) : bool :=
  match e with GL (glVertex3f _ _ _) => true | _ => false end.

(** Number of elements of a list that pass a test. *)
Definition count {A : Type} (f : A -> bool) (l : list A) : nat :=
  length (filter (fun a => f a = true) l).

(** Total of a list of time steps. *)
Definition total (deltas : list R) : R := foldr Rplus 0 deltas.

(** The data members that neither a frame nor an animation step touches. *)
Definition same_device (s s' : SimpleRenderer) : Prop :=
  width s' = width s /\ height s' = height s /\
  clear_color s' = clear_color s /\
  native_rendering_enabled s' = native_rendering_enabled s /\
  directx_initialized s' = directx_initialized s /\
  animation_enabled s' = animation_enabled s /\
  camera_distance s' = camera_distance s /\
  camera_height s' = camera_height s /\
  window_handle s' = window_handle s /\
  d3d_device s' = d3d_device s /\
  d3d_context s' = d3d_context s /\
  swap_chain s' = swap_chain s.

(** One cube taken through successive animation steps. *)
Definition update_cube_steps (deltas : list R) (cube : Cube.t) : Cube.t :=
  foldl (fun c d => update_cube d c) cube deltas.

(** ** The arithmetic of [float]

    IEEE 754 binary32: 24 bits of precision, exponents below 128, rounding
    to nearest with ties to even, as the specification of floating-point
    arithmetic of the Rocq library computes it. *)
Module F32.
Definition prec : Z := 24%Z.
Definition emax : Z := 128%Z.
Definition add (a b : SpecFloat.spec_float) : SpecFloat.spec_float :=
  SpecFloat.SFadd prec emax a b.
Definition mul (a b : SpecFloat.spec_float) : SpecFloat.spec_float :=
  SpecFloat.SFmul prec emax a b.
Definition leb (a b : SpecFloat.spec_float) : bool := SpecFloat.SFleb a b.
(** The float nearest to [m * 2^e]. *)
Definition scaled (m e : Z) : SpecFloat.spec_float :=
  SpecFloat.binary_normalize prec emax m e false.
Definition of_Z (n : Z) : SpecFloat.spec_float := scaled n 0.
Definition zero : SpecFloat.spec_float := SpecFloat.S754_zero false.
Definition one : SpecFloat.spec_float := of_Z 1.
Definition half : SpecFloat.spec_float := scaled 1 (-1).
Definition infinity : SpecFloat.spec_float := SpecFloat.S754_infinity false.
Definition nan : SpecFloat.spec_float := SpecFloat.S754_nan.
End F32.

(** [cube.animation_time += delta_time * cube.rotation_speed], the first
    statement of the loop of [update_animation], in binary32: the value
    stored in [cube.animation_time]. *)
Definition advance_phase_f32
    (delta_time rotation_speed animation_time : SpecFloat.spec_float) :
    SpecFloat.spec_float :=
  F32.add animation_time (F32.mul delta_time rotation_speed).

(** The literals [2.094f] and [4.188f]. *)
Definition offset_120_f32 : SpecFloat.spec_float := F32.scaled 8782873 (-22).
Definition offset_240_f32 : SpecFloat.spec_float := F32.scaled 8782873 (-21).

(** [0.5f + 0.5f * s] in binary32, the colour channel stored when the call
    of [sin] has returned [s]. *)
Definition color_channel_f32 (s : SpecFloat.spec_float) : SpecFloat.spec_float :=
  F32.add F32.half (F32.mul F32.half s).

(** What the C library fixes for [sin] outside the finite numbers: at an
    infinity and at a NaN the result is a NaN.  At a finite argument the
    value is the library's and is left open here. *)
Definition sin_nonfinite (x : SpecFloat.spec_float) : option SpecFloat.spec_float :=
  match x with
  | SpecFloat.S754_infinity _ | SpecFloat.S754_nan => Some F32.nan
  | _ => None
  end.

(** The test [0 <= x && x <= 1] on a [float]. *)
Definition in_unit_f32 (x : SpecFloat.spec_float) : bool :=
  F32.leb F32.zero x && F32.leb x F32.one.

(** * Properties *)

(** ** Running the monad *)

Lemma run_eta {A : Type} (r : A * SimpleRenderer * list effect) :
  (r.1.1, r.1.2, r.2) = r.
Proof. destruct r as [[a s] o]; reflexivity. Qed.

Lemma bind_ret {A B : Type} (a : A) (k : A -> M B) (s : SimpleRenderer) :
  bind (ret a) k s = k a s.
Proof. unfold bind, ret; cbn. apply run_eta. Qed.

Lemma bind_get {B : Type} (k : SimpleRenderer -> M B) (s : SimpleRenderer) :
  bind get k s = k s s.
Proof. unfold bind, get; cbn. apply run_eta. Qed.

Lemma bind_modify {B : Type} (f : SimpleRenderer -> SimpleRenderer)
    (k : unit -> M B) (s : SimpleRenderer) :
  bind (modify f) k s = k tt (f s).
Proof. unfold bind, modify; cbn. apply run_eta. Qed.

Lemma bind_emit_all {B : Type} (l : list effect) (k : unit -> M B)
    (s : SimpleRenderer) :
  bind (emit_all l) k s = ((k tt s).1.1, (k tt s).1.2, l ++ (k tt s).2).
Proof. reflexivity. Qed.

Lemma bind_emit {B : Type} (e : effect) (k : unit -> M B) (s : SimpleRenderer) :
  bind (emit e) k s = ((k tt s).1.1, (k tt s).1.2, e :: (k tt s).2).
Proof. reflexivity. Qed.

Lemma bind_cout {B : Type} (l : console_line) (k : unit -> M B)
    (s : SimpleRenderer) :
  bind (cout l) k s = ((k tt s).1.1, (k tt s).1.2, Cout l :: (k tt s).2).
Proof. reflexivity. Qed.

Lemma bind_run {A B : Type} (m : M A) (k : A -> M B) (s s1 : SimpleRenderer)
    (a : A) :
  m s = (a, s1, []) -> bind m k s = k a s1.
Proof. intros E. unfold bind. rewrite E. cbn. apply run_eta. Qed.

Lemma modify_run (f : SimpleRenderer -> SimpleRenderer) (s : SimpleRenderer) :
  modify f s = (tt, f s, []).
Proof. reflexivity. Qed.

Lemma ret_run {A : Type} (a : A) (s : SimpleRenderer) : ret a s = (a, s, []).
Proof. reflexivity. Qed.

Lemma cout_run (l : console_line) (s : SimpleRenderer) :
  cout l s = (tt, s, [Cout l]).
Proof. reflexivity. Qed.

Create Rewrite HintDb run.
#[local] Hint Rewrite @bind_ret @bind_get @bind_modify @bind_emit @bind_cout
  @bind_emit_all modify_run @ret_run cout_run : run.

(** Read a data member off a renderer built by the setters. *)
Ltac fields :=
  cbn [fst snd width height frame_count clear_color native_rendering_enabled
       cubes animation_time camera_orbit_angle camera_distance camera_height
       animation_enabled directx_initialized window_handle d3d_device
       d3d_context swap_chain last_time
       set_size set_frame_count set_clear_color_field
       set_native_rendering_enabled set_cubes set_animation_time
       set_camera_orbit_angle set_camera_distance set_camera_height
       set_animation_enabled set_directx_initialized set_window_handle_field
       set_d3d_objects set_last_time] in *.

(** Unfold one member function, then push the renderer through its body. *)
Ltac run :=
  unfold render_frame, animate_frame, update_animation, enable_native_rendering,
    initialize_d3d11, move_object, add_cube, constructor, toggle_animation,
    set_camera_orbit, resize, set_clear_color, set_window_handle,
    render_native, render_pending, render_fallback, count_frame,
    create_simple_renderer, when;
  repeat (autorewrite with run; cbn [fst snd state result output]).

(** ** Construction *)

(** C10.  Right after construction, for any width and height, the renderer
    holds exactly one cube, at (0, 0, 0) with size 1, colour (1, 0, 0) and
    phase 0; the frame counter is 0, native rendering is neither requested
    nor ready (the status is the fallback one) and animation is enabled.  The
    first [add_cube] of a client therefore creates the second cube, at
    index 1, and leaves the default cube at index 0. *)
Theorem constructor_initial_state (RAND_MAX w h r : Z) :
  let s := create_simple_renderer RAND_MAX w h r in
  (exists speed, cubes s = [Cube.mk 0 0 0 1 (Float3 1 0 0) speed 0]) /\
  width s = w /\ height s = h /\
  get_frame_count s = 0%Z /\
  native_rendering_enabled s = false /\
  directx_initialized s = false /\
  get_renderer_info s = "OpenGL Fallback C++ Renderer"%string /\
  animation_enabled s = true /\
  forall (x y z size : R) (r' : Z),
    let s' := state (add_cube RAND_MAX x y z size r' s) in
    length (cubes s') = 2%nat /\
    cubes s' !! 0%nat = cubes s !! 0%nat /\
    exists speed',
      cubes s' !! 1%nat = Some (Cube.mk x y z size (Float3 1 0 0) speed' 0).
Proof.
  cbv zeta. unfold create_simple_renderer, constructor, add_cube, state.
  autorewrite with run. cbn.
  repeat split; eauto.
Qed.

(** ** Status *)

(** C5, as amended.  [get_renderer_info] depends on the renderer only through
    the pair ([native_rendering_enabled], [directx_initialized]) and has
    exactly three outcomes, pairwise different; the texts are those of the
    code, not the short labels of the specification. *)
Theorem get_renderer_info_table (s : SimpleRenderer) :
  get_renderer_info s =
    match native_rendering_enabled s, directx_initialized s with
    | true, true => "Native DirectX C++ Renderer (Animated)"
    | true, false => "Native DirectX C++ Renderer (Initializing...)"
    | false, _ => "OpenGL Fallback C++ Renderer"
    end%string
  /\ "Native DirectX C++ Renderer (Animated)"%string
       <> "Native DirectX C++ Renderer (Initializing...)"%string
  /\ "Native DirectX C++ Renderer (Animated)"%string
       <> "OpenGL Fallback C++ Renderer"%string
  /\ "Native DirectX C++ Renderer (Initializing...)"%string
       <> "OpenGL Fallback C++ Renderer"%string.
Proof.
  unfold get_renderer_info.
  destruct (native_rendering_enabled s), (directx_initialized s); cbn;
    repeat split; discriminate.
Qed.

(** C5, counterexample.  On three renderers that differ in the two flags
    only, the status is none of the texts the claim quotes. *)
Lemma get_renderer_info_not_short_labels :
  let s := member_init 800 600 in
  get_renderer_info (set_directx_initialized true (set_native_rendering_enabled true s))
    <> "native, animated/ready"%string /\
  get_renderer_info (set_native_rendering_enabled true s)
    <> "native, initializing"%string /\
  get_renderer_info s <> "fallback"%string.
Proof. cbn. repeat split; discriminate. Qed.

(** ** Moving an object *)

(** C9.  [move_object] with an index that is not below the number of cubes
    does nothing: it returns normally, writes nothing and leaves the whole
    renderer as it was.  With an index in range it overwrites [x], [y], [z]
    of that cube, keeps its size, colour, speed and phase, keeps every other
    cube and every other data member. *)
Theorem move_object_bounds (s : SimpleRenderer) (index : nat) (x y z : R) :
  ((length (cubes s) <= index)%nat ->
     move_object index x y z s = (tt, s, [])) /\
  ((index < length (cubes s))%nat ->
     let s' := state (move_object index x y z s) in
     (exists c c',
        cubes s !! index = Some c /\ cubes s' !! index = Some c' /\
        Cube.x c' = x /\ Cube.y c' = y /\ Cube.z c' = z /\
        Cube.size c' = Cube.size c /\ Cube.color c' = Cube.color c /\
        Cube.rotation_speed c' = Cube.rotation_speed c /\
        Cube.animation_time c' = Cube.animation_time c) /\
     (forall j, j <> index -> cubes s' !! j = cubes s !! j) /\
     length (cubes s') = length (cubes s) /\
     s' = set_cubes (cubes s') s).
Proof.
  split; intros Hi.
  - unfold move_object, bind, get, when; cbn [fst snd].
    apply Nat.ltb_ge in Hi. rewrite Hi. destruct s; reflexivity.
  - cbv zeta. unfold move_object, bind, get, when, state; cbn [fst snd].
    pose proof Hi as Hlt. apply Nat.ltb_lt in Hi. rewrite Hi.
    unfold modify, cout, emit; cbn [fst snd cubes set_cubes].
    destruct (lookup_lt_is_Some_2 (cubes s) index Hlt) as [c Hc].
    repeat split.
    + exists c, (Cube.set_position x y z c).
      rewrite list_lookup_alter_eq, Hc. cbn. repeat split; reflexivity.
    + intros j Hj. apply list_lookup_alter_ne. congruence.
    + apply length_alter.
Qed.

(** C9, at concrete inputs: index 1 is out of range for the single default
    cube; index 0 moves it. *)
Lemma move_object_bounds_witness :
  let s := create_simple_renderer 32767 800 600 0 in
  (length (cubes s) <= 1)%nat /\
  move_object 1 2 3 4 s = (tt, s, []) /\
  (0 < length (cubes s))%nat /\
  forall j, j <> 0%nat ->
    cubes (state (move_object 0 2 3 4 s)) !! j = cubes s !! j.
Proof.
  cbv zeta.
  assert (H1 : (length (cubes (create_simple_renderer 32767 800 600 0)) <= 1)%nat)
    by (cbn; lia).
  assert (H0 : (0 < length (cubes (create_simple_renderer 32767 800 600 0)))%nat)
    by (cbn; lia).
  split; [exact H1|]. split.
  - exact (proj1 (move_object_bounds
                    (create_simple_renderer 32767 800 600 0) 1 2 3 4) H1).
  - split; [exact H0|].
    exact (proj1 (proj2 (proj2 (move_object_bounds
                    (create_simple_renderer 32767 800 600 0) 0 2 3 4) H0))).
Defined.

(** ** Frames *)

Lemma update_animation_run (delta_time : R) (s : SimpleRenderer) :
  update_animation delta_time s =
    (tt,
     set_cubes (map (update_cube delta_time) (cubes s))
       (set_camera_orbit_angle
          (let a := camera_orbit_angle s + delta_time * 0.5 in
           if bool_decide (a > 2 * 3.14159) then a - 2 * 3.14159 else a)
          (set_animation_time (animation_time s + delta_time) s)),
     []).
Proof.
  run. fields. case_bool_decide; run; reflexivity.
Qed.

Lemma animate_frame_run (inp : frame_inputs) (s : SimpleRenderer) :
  animate_frame inp s =
    (tt,
     if animation_enabled s then
       state (update_animation (frame_delta_time inp s)
                (set_last_time (clock_now inp) s))
     else s,
     []).
Proof.
  unfold animate_frame, when. rewrite bind_get.
  destruct (animation_enabled s); [|reflexivity].
  rewrite bind_modify. unfold frame_delta_time, state.
  rewrite !update_animation_run. reflexivity.
Qed.

Lemma render_path_body_state (win32 : bool) (inp : frame_inputs)
    (p : render_path) (s : SimpleRenderer) :
  state (render_path_body win32 inp p s) = s.
Proof.
  destruct p; cbn [render_path_body]; run.
  - destruct win32, (negb (d3d_context s =? 0)%Z && negb (swap_chain s =? 0)%Z),
      (negb (render_target inp =? 0)%Z), (negb (back_buffer inp =? 0)%Z),
      (frame_count s mod 60 =? 0)%Z; run; reflexivity.
  - destruct (frame_count s mod 60 =? 0)%Z; run; reflexivity.
  - destruct (frame_count s mod 60 =? 0)%Z; run; reflexivity.
Qed.

Lemma draw_cubes_effects (l : list Cube.t) :
  Forall (fun e => effect_path e = Some Fallback) (flat_map draw_cube l).
Proof.
  induction l as [|c l IH]; cbn [flat_map]; [constructor|].
  apply Forall_app; split; [|exact IH].
  unfold draw_cube. apply Forall_fmap, Forall_forall. reflexivity.
Qed.

Lemma render_path_body_effects (win32 : bool) (inp : frame_inputs)
    (p : render_path) (s : SimpleRenderer) :
  Forall (fun e => effect_path e = Some p)
    (output (render_path_body win32 inp p s)).
Proof.
  destruct p; cbn [render_path_body]; run.
  - destruct win32, (negb (d3d_context s =? 0)%Z && negb (swap_chain s =? 0)%Z),
      (negb (render_target inp =? 0)%Z), (negb (back_buffer inp =? 0)%Z),
      (frame_count s mod 60 =? 0)%Z; run; repeat constructor.
  - destruct (frame_count s mod 60 =? 0)%Z; run; repeat constructor.
  - repeat (apply Forall_cons; split; [reflexivity|]).
    apply Forall_app; split; [apply draw_cubes_effects|].
    destruct (frame_count s mod 60 =? 0)%Z; run; repeat constructor.
Qed.

(** What [update_animation] leaves alone. *)
Lemma update_animation_frame (delta_time : R) (s : SimpleRenderer) :
  let s' := state (update_animation delta_time s) in
  native_rendering_enabled s' = native_rendering_enabled s /\
  directx_initialized s' = directx_initialized s /\
  animation_enabled s' = animation_enabled s /\
  frame_count s' = frame_count s /\
  last_time s' = last_time s.
Proof.
  cbv zeta. unfold state. rewrite update_animation_run. fields. auto.
Qed.

Lemma animate_frame_frame (inp : frame_inputs) (s : SimpleRenderer) :
  let s' := state (animate_frame inp s) in
  native_rendering_enabled s' = native_rendering_enabled s /\
  directx_initialized s' = directx_initialized s /\
  animation_enabled s' = animation_enabled s /\
  frame_count s' = frame_count s.
Proof.
  cbv zeta. unfold state at 1 2 3 4. rewrite animate_frame_run. fields.
  destruct (animation_enabled s) eqn:E; [|auto].
  destruct (update_animation_frame (frame_delta_time inp s)
              (set_last_time (clock_now inp) s)) as (-> & -> & -> & -> & _).
  fields. auto.
Qed.

(** [render_frame], branch by branch: count the frame, animate, run the body
    of one branch on the renderer so obtained, return [true]. *)
Lemma render_frame_run (win32 : bool) (inp : frame_inputs) (s : SimpleRenderer) :
  let s1 := state (animate_frame inp
                     (set_frame_count (wrap64 (frame_count s + 1)) s)) in
  render_frame win32 inp s =
    (true, s1,
     output (render_path_body win32 inp
               (spec_render_path (native_rendering_enabled s)
                                 (directx_initialized s)) s1)).
Proof.
  cbv zeta. unfold render_frame. rewrite bind_modify.
  set (s0 := set_frame_count _ s).
  destruct (animate_frame_frame inp s0) as (Hn & Hd & _).
  assert (E : animate_frame inp s0 = (tt, state (animate_frame inp s0), []))
    by (rewrite animate_frame_run; reflexivity).
  rewrite (bind_run _ _ _ _ _ E), bind_get, Hn, Hd.
  subst s0; fields.
  set (s1 := state _).
  assert (B : forall p,
    ((render_path_body win32 inp p ;; ret true)%M s1)
    = (true, s1, output (render_path_body win32 inp p s1))).
  { intros p. unfold bind. cbn [fst snd ret].
    change ((render_path_body win32 inp p s1).1.2)
      with (state (render_path_body win32 inp p s1)).
    rewrite render_path_body_state, app_nil_r. reflexivity. }
  destruct (native_rendering_enabled s), (directx_initialized s);
    cbn [andb spec_render_path];
    [ apply (B NativeDevice) | apply (B NativePending)
    | apply (B Fallback) | apply (B Fallback) ].
Qed.

Lemma render_frame_state (win32 : bool) (inp : frame_inputs)
    (s : SimpleRenderer) :
  state (render_frame win32 inp s)
  = state (animate_frame inp (set_frame_count (wrap64 (frame_count s + 1)) s)).
Proof.
  pose proof (render_frame_run win32 inp s) as E. cbv zeta in E.
  rewrite E. reflexivity.
Qed.

Lemma render_frame_count (win32 : bool) (inp : frame_inputs)
    (s : SimpleRenderer) :
  frame_count (state (render_frame win32 inp s)) = wrap64 (frame_count s + 1).
Proof.
  pose proof (render_frame_run win32 inp s) as E. cbv zeta in E.
  rewrite E. unfold state at 1. cbn [fst snd].
  destruct (animate_frame_frame inp
              (set_frame_count (wrap64 (frame_count s + 1)) s))
    as (_ & _ & _ & ->).
  reflexivity.
Qed.

Lemma render_frame_bind (win32 : bool) (inp : frame_inputs) (s : SimpleRenderer) :
  render_frame win32 inp s =
    (count_frame ;; animate_frame inp ;;
     render_path_body win32 inp
       (spec_render_path (native_rendering_enabled s) (directx_initialized s)) ;;
     ret true)%M s.
Proof.
  pose proof (render_frame_run win32 inp s) as E. cbv zeta in E. rewrite E.
  unfold count_frame. rewrite bind_modify.
  set (s0 := set_frame_count _ s).
  assert (A : animate_frame inp s0 = (tt, state (animate_frame inp s0), []))
    by (rewrite animate_frame_run; reflexivity).
  rewrite (bind_run _ _ _ _ _ A).
  unfold bind. cbn [fst snd ret].
  set (p := spec_render_path _ _).
  change ((render_path_body win32 inp p (state (animate_frame inp s0))).1.2)
    with (state (render_path_body win32 inp p (state (animate_frame inp s0)))).
  rewrite render_path_body_state, app_nil_r. reflexivity.
Qed.

Lemma wrap64_succ (n : Z) :
  (0 <= n < 2 ^ 64 - 1)%Z -> wrap64 (n + 1) = (n + 1)%Z.
Proof. intros H. unfold wrap64. apply Z.mod_small. lia. Qed.

(** C4, as amended.  Every call of [render_frame], whatever the two flags,
    returns [true], replaces the frame counter by its successor modulo
    [2^64] (so by the counter plus one as long as the counter is below
    [2^64 - 1]) and is the run of exactly one branch, the one the dispatch
    table gives for the pair of flags: the call equals counting the frame,
    animating, then running the body of that branch, and no effect that
    belongs to another branch is produced. *)
Theorem render_frame_one_path (win32 : bool) (inp : frame_inputs)
    (s : SimpleRenderer) :
  let r := render_frame win32 inp s in
  let p := spec_render_path (native_rendering_enabled s) (directx_initialized s) in
  result r = true /\
  frame_count (state r) = ((frame_count s + 1) mod 2 ^ 64)%Z /\
  ((0 <= frame_count s < 2 ^ 64 - 1)%Z ->
     frame_count (state r) = (frame_count s + 1)%Z) /\
  r = (count_frame ;; animate_frame inp ;; render_path_body win32 inp p ;;
       ret true)%M s /\
  Forall (fun e => effect_path e = Some p) (output r) /\
  forall q, q <> p -> Forall (fun e => effect_path e <> Some q) (output r).
Proof.
  cbv zeta.
  set (p := spec_render_path _ _).
  pose proof (render_frame_run win32 inp s) as E. cbv zeta in E. fold p in E.
  pose proof (render_frame_count win32 inp s) as Hc.
  assert (Ho : Forall (fun e => effect_path e = Some p)
                 (output (render_frame win32 inp s))).
  { rewrite E. unfold output at 1. cbn [snd].
    apply render_path_body_effects. }
  split; [|split; [|split; [|split; [|split]]]].
  - rewrite E. reflexivity.
  - exact Hc.
  - intros H. rewrite Hc. apply wrap64_succ, H.
  - apply render_frame_bind.
  - exact Ho.
  - intros q Hq. eapply Forall_impl; [exact Ho|].
    intros e He. cbn beta in He. rewrite He. congruence.
Qed.

(** Every value of the 64-bit counter is the frame count of some renderer
    that a host can reach: render that many frames. *)
Lemma reachable_frame_count (win32 : bool) (RAND_MAX : Z) (n : nat) :
  (0 <= RAND_MAX)%Z ->
  exists s, reachable win32 RAND_MAX s /\ frame_count s = wrap64 (Z.of_nat n).
Proof.
  intros Hm. induction n as [|n (s & Hs & Hn)].
  - exists (create_simple_renderer RAND_MAX 0 0 0). split; [|reflexivity].
    apply reachable_create. unfold rand_value. lia.
  - exists (state (perform win32 RAND_MAX (RenderFrame (FrameInputs 0 0 0 0)) s)).
    split; [apply reachable_call; [exact Hs | exact I]|].
    cbn [perform].
    change (state ((render_frame win32 (FrameInputs 0 0 0 0);; ret tt)%M s))
      with (state (render_frame win32 (FrameInputs 0 0 0 0) s)).
    rewrite render_frame_count, Hn. unfold wrap64.
    rewrite Zplus_mod_idemp_l. f_equal. lia.
Qed.

(** C4, counterexample.  A renderer whose 64-bit frame counter holds its
    largest value: the next frame brings the counter to 0, not to the
    counter plus one.  Such a renderer can be reached through the
    interface. *)
Lemma render_frame_counter_wraps :
  let s := set_frame_count (2 ^ 64 - 1) (create_simple_renderer 32767 800 600 0) in
  let s' := state (render_frame true (FrameInputs 0 0 0 0) s) in
  (frame_count s' = 0%Z /\ frame_count s' <> (frame_count s + 1)%Z) /\
  exists t,
    reachable true 32767 t /\ frame_count t = (2 ^ 64 - 1)%Z /\
    frame_count (state (render_frame true (FrameInputs 0 0 0 0) t)) = 0%Z.
Proof.
  cbv zeta. split.
  - rewrite render_frame_count. fields. split; [reflexivity | discriminate].
  - destruct (reachable_frame_count true 32767 (Z.to_nat (2 ^ 64 - 1)))
      as (t & Ht & Hn); [lia|].
    rewrite Z2Nat.id in Hn by lia.
    exists t. split; [exact Ht|].
    rewrite render_frame_count, Hn. split; reflexivity.
Qed.

(** C4 at a concrete input: the first frame of a fresh renderer. *)
Lemma render_frame_one_path_witness :
  let s := create_simple_renderer 32767 800 600 0 in
  (0 <= frame_count s < 2 ^ 64 - 1)%Z /\
  frame_count (state (render_frame true (FrameInputs 0 0 0 0) s)) = 1%Z.
Proof.
  cbv zeta.
  assert (H : (0 <= frame_count (create_simple_renderer 32767 800 600 0)
               < 2 ^ 64 - 1)%Z) by (cbn; lia).
  split; [exact H|].
  exact (proj1 (proj2 (proj2
    (render_frame_one_path true (FrameInputs 0 0 0 0)
       (create_simple_renderer 32767 800 600 0)))) H).
Defined.

(** ** Pausing *)

Lemma render_frame_paused (win32 : bool) (inp : frame_inputs)
    (s : SimpleRenderer) :
  animation_enabled s = false ->
  state (render_frame win32 inp s)
  = set_frame_count (wrap64 (frame_count s + 1)) s.
Proof.
  intros H. pose proof (render_frame_run win32 inp s) as E. cbv zeta in E.
  rewrite E. unfold state at 1. cbn [fst snd].
  unfold state. rewrite animate_frame_run. fields. rewrite H. reflexivity.
Qed.

(** C2.  While [animation_enabled] is false the animation step does nothing,
    however often it is run and whatever the clock says: the block of
    [render_frame] that steps the animation returns the renderer it was
    given and writes nothing, and after any number of frames every cube
    (phase, position, colour and the rest), the camera orbit angle and the
    animation clock are what they were before. *)
Theorem paused_animation_is_noop (win32 : bool) (inps : list frame_inputs)
    (s : SimpleRenderer) :
  animation_enabled s = false ->
  (forall inp, animate_frame inp s = (tt, s, [])) /\
  animate_frames inps s = s /\
  let s' := render_frames win32 inps s in
  cubes s' = cubes s /\
  camera_orbit_angle s' = camera_orbit_angle s /\
  animation_time s' = animation_time s /\
  last_time s' = last_time s /\
  animation_enabled s' = false.
Proof.
  intros H.
  assert (A : forall inp, animate_frame inp s = (tt, s, [])).
  { intros inp. rewrite animate_frame_run, H. reflexivity. }
  split; [exact A|]. split.
  - induction inps as [|inp inps IH]; cbn [animate_frames]; [reflexivity|].
    rewrite A. exact IH.
  - cbv zeta. revert s H A.
    induction inps as [|inp inps IH]; intros s H _; cbn [render_frames]; [auto|].
    rewrite (render_frame_paused win32 inp s H).
    set (s1 := set_frame_count _ s).
    destruct (IH s1) as (-> & -> & -> & -> & ->).
    + exact H.
    + intros inp'. rewrite animate_frame_run. subst s1. fields. rewrite H.
      reflexivity.
    + subst s1. fields. auto.
Qed.

(** C2 at a concrete input: a fresh renderer, paused, then three frames. *)
Lemma paused_animation_is_noop_witness :
  let s := state (toggle_animation (create_simple_renderer 32767 800 600 0)) in
  let frames := [FrameInputs 0 1 0 0; FrameInputs 0 2 0 0; FrameInputs 0 5 0 0] in
  animation_enabled s = false /\
  cubes (render_frames true frames s) = cubes s /\
  camera_orbit_angle (render_frames true frames s) = camera_orbit_angle s.
Proof.
  cbv zeta.
  assert (H : animation_enabled
                (state (toggle_animation
                          (create_simple_renderer 32767 800 600 0))) = false)
    by reflexivity.
  split; [exact H|].
  destruct (paused_animation_is_noop true
              [FrameInputs 0 1 0 0; FrameInputs 0 2 0 0; FrameInputs 0 5 0 0]
              _ H) as (_ & _ & Hc & Ha & _).
  split; [exact Hc | exact Ha].
Defined.

(** ** Enabling native rendering *)

Lemma initialize_d3d11_run (win32 : bool) (d : d3d_create_result)
    (s : SimpleRenderer) :
  let ok := win32 && negb (window_handle s =? 0)%Z && SUCCEEDED (hr d) in
  let s' := state (initialize_d3d11 win32 d s) in
  result (initialize_d3d11 win32 d s) = ok /\
  native_rendering_enabled s' = native_rendering_enabled s /\
  directx_initialized s' = directx_initialized s /\
  window_handle s' = window_handle s.
Proof.
  cbv zeta. unfold initialize_d3d11.
  destruct win32; [|cbn; auto].
  rewrite bind_get.
  destruct (window_handle s =? 0)%Z; [cbn; auto|].
  rewrite bind_modify.
  destruct (SUCCEEDED (hr d)); cbn; auto.
Qed.

Lemma enable_native_rendering_failed (win32 : bool) (d : d3d_create_result)
    (s : SimpleRenderer) :
  result (initialize_d3d11 win32 d s) = false ->
  let s' := state (enable_native_rendering win32 d s) in
  native_rendering_enabled s' = false /\
  directx_initialized s' = directx_initialized s.
Proof.
  intros H. cbv zeta.
  destruct (initialize_d3d11_run win32 d s) as (R0 & _).
  rewrite R0 in H.
  unfold enable_native_rendering. rewrite bind_modify.
  set (s1 := set_native_rendering_enabled true s).
  destruct (initialize_d3d11_run win32 d s1) as (R1 & _ & D1 & _).
  subst s1; fields. rewrite H in R1.
  unfold state, bind, cout, emit. cbn [fst snd].
  unfold result in R1. rewrite R1.
  unfold modify. cbn [fst snd]. fields. split; [reflexivity|].
  exact D1.
Qed.

Lemma render_frame_flags (win32 : bool) (inp : frame_inputs)
    (s : SimpleRenderer) :
  let s' := state (render_frame win32 inp s) in
  native_rendering_enabled s' = native_rendering_enabled s /\
  directx_initialized s' = directx_initialized s.
Proof.
  cbv zeta. rewrite render_frame_state.
  destruct (animate_frame_frame inp
              (set_frame_count (wrap64 (frame_count s + 1)) s))
    as (-> & -> & _).
  fields. auto.
Qed.

Lemma render_frames_flags (win32 : bool) (inps : list frame_inputs)
    (s : SimpleRenderer) :
  let s' := render_frames win32 inps s in
  native_rendering_enabled s' = native_rendering_enabled s /\
  directx_initialized s' = directx_initialized s.
Proof.
  cbv zeta. revert s.
  induction inps as [|inp inps IH]; intros s; cbn [render_frames]; [auto|].
  destruct (IH (state (render_frame win32 inp s))) as (-> & ->).
  apply render_frame_flags.
Qed.

(** C3.  When the device initialisation fails during
    [enable_native_rendering], the request flag is back to false when the
    call returns and the ready flag is what it was (false if it was false):
    the status is the fallback one at once, it stays so over any number of
    frames, and each of these frames runs the fallback branch. *)
Theorem enable_native_rendering_rollback (win32 : bool) (d : d3d_create_result)
    (s : SimpleRenderer) :
  result (initialize_d3d11 win32 d s) = false ->
  let s' := state (enable_native_rendering win32 d s) in
  native_rendering_enabled s' = false /\
  directx_initialized s' = directx_initialized s /\
  get_renderer_info s' = "OpenGL Fallback C++ Renderer"%string /\
  forall (inps : list frame_inputs) (inp : frame_inputs),
    let s'' := render_frames win32 inps s' in
    get_renderer_info s'' = "OpenGL Fallback C++ Renderer"%string /\
    render_frame win32 inp s'' =
      (count_frame ;; animate_frame inp ;; render_fallback ;; ret true)%M s''.
Proof.
  intros H. cbv zeta.
  destruct (enable_native_rendering_failed win32 d s H) as (Hn & Hd).
  split; [exact Hn|]. split; [exact Hd|]. split.
  - unfold get_renderer_info. rewrite Hn. reflexivity.
  - intros inps inp.
    destruct (render_frames_flags win32 inps
                (state (enable_native_rendering win32 d s))) as (Fn & _).
    rewrite Hn in Fn. split.
    + unfold get_renderer_info. rewrite Fn. reflexivity.
    + rewrite render_frame_bind, Fn. reflexivity.
Qed.

(** C3 at a concrete input: no window handle has been set, so the device
    cannot be created. *)
Lemma enable_native_rendering_rollback_witness :
  let s := create_simple_renderer 32767 800 600 0 in
  let d := D3DCreate 0 1 2 3 in
  result (initialize_d3d11 true d s) = false /\
  get_renderer_info (state (enable_native_rendering true d s))
    = "OpenGL Fallback C++ Renderer"%string.
Proof.
  cbv zeta.
  assert (H : result (initialize_d3d11 true (D3DCreate 0 1 2 3)
                        (create_simple_renderer 32767 800 600 0)) = false)
    by reflexivity.
  split; [exact H|].
  exact (proj1 (proj2 (proj2
    (enable_native_rendering_rollback true (D3DCreate 0 1 2 3)
       (create_simple_renderer 32767 800 600 0) H)))).
Defined.

(** ** Animation *)

Lemma cubes_update_animation (delta_time : R) (s : SimpleRenderer) :
  cubes (state (update_animation delta_time s))
  = map (update_cube delta_time) (cubes s).
Proof. unfold state. rewrite update_animation_run. reflexivity. Qed.

Lemma camera_update_animation (delta_time : R) (s : SimpleRenderer) :
  camera_orbit_angle (state (update_animation delta_time s))
  = let a := camera_orbit_angle s + delta_time * 0.5 in
    if bool_decide (a > 2 * 3.14159) then a - 2 * 3.14159 else a.
Proof. unfold state. rewrite update_animation_run. reflexivity. Qed.

Lemma half_sin_bounds (a : R) : 0 <= 0.5 + 0.5 * sin a <= 1.
Proof. pose proof (SIN_bound a). lra. Qed.

(** C7, as amended.  Whatever finite phase a cube reaches, the three colour
    channels that the animation step writes are [0.5 + 0.5 * sin phase],
    [0.5 + 0.5 * sin (phase + 2.094)] and [0.5 + 0.5 * sin (phase + 4.188)],
    and each lies in [0, 1]; so does every channel of every cube after
    [update_animation].  (The phases of the model are real numbers, hence
    finite.) *)
Theorem color_channels_bounded (delta_time : R) :
  (forall cube : Cube.t,
     let cube' := update_cube delta_time cube in
     let phase := Cube.animation_time cube' in
     Cube.color cube' =
       Float3 (0.5 + 0.5 * sin phase) (0.5 + 0.5 * sin (phase + 2.094))
              (0.5 + 0.5 * sin (phase + 4.188)) /\
     0 <= at0 (Cube.color cube') <= 1 /\
     0 <= at1 (Cube.color cube') <= 1 /\
     0 <= at2 (Cube.color cube') <= 1) /\
  (forall s : SimpleRenderer,
     Forall (fun c =>
               0 <= at0 (Cube.color c) <= 1 /\
               0 <= at1 (Cube.color c) <= 1 /\
               0 <= at2 (Cube.color c) <= 1)
       (cubes (state (update_animation delta_time s)))).
Proof.
  assert (A : forall cube : Cube.t,
     let cube' := update_cube delta_time cube in
     let phase := Cube.animation_time cube' in
     Cube.color cube' =
       Float3 (0.5 + 0.5 * sin phase) (0.5 + 0.5 * sin (phase + 2.094))
              (0.5 + 0.5 * sin (phase + 4.188)) /\
     0 <= at0 (Cube.color cube') <= 1 /\
     0 <= at1 (Cube.color cube') <= 1 /\
     0 <= at2 (Cube.color cube') <= 1).
  { intros cube. cbv zeta. unfold update_cube.
    cbn [Cube.color Cube.animation_time at0 at1 at2].
    split; [reflexivity|]. auto using half_sin_bounds. }
  split; [exact A|].
  intros s. rewrite cubes_update_animation.
  apply Forall_fmap, Forall_forall. intros c _. cbn beta.
  destruct (A c) as (_ & H). exact H.
Qed.

(** C7, counterexample.  In binary32, on a fresh renderer with
    [rand() = 0] (speed 1), two calls of [update_animation] with the finite
    [delta_time = 2^127] (about 1.7e38) take the phase of the default cube
    from 0 to [2^127] and then, by overflow, to plus infinity.  At that
    phase, and at that phase plus [2.094f] or [4.188f], [sin] returns a
    NaN, and the channel [0.5f + 0.5f * NaN] is a NaN, which is not in
    [0, 1]. *)
Lemma color_channel_nan_after_overflow :
  let step := F32.scaled 1 127 in
  let speed := F32.one in
  let phase1 := advance_phase_f32 step speed F32.zero in
  let phase2 := advance_phase_f32 step speed phase1 in
  phase1 = step /\
  phase2 = F32.infinity /\
  sin_nonfinite phase2 = Some F32.nan /\
  sin_nonfinite (F32.add phase2 offset_120_f32) = Some F32.nan /\
  sin_nonfinite (F32.add phase2 offset_240_f32) = Some F32.nan /\
  color_channel_f32 F32.nan = F32.nan /\
  in_unit_f32 (color_channel_f32 F32.nan) = false.
Proof. vm_compute. repeat split. Qed.

Lemma PI_above_314159 : 3.14159 < PI.
Proof.
  pose proof (PI_2_3_7_ineq 3) as [H _].
  unfold sum_f_R0, tg_alt, PI_2_3_7_tg, Ratan_seq in H.
  simpl in H. lra.
Qed.

(** C8, as amended.  [update_animation] adds [delta_time * 0.5] to the camera
    orbit angle and, when the sum is above [2 * 3.14159], subtracts
    [2 * 3.14159] once.  The angle after the call lies in [0, 2 * 3.14159],
    hence in [0, 2 * PI), provided the angle before the call lies in
    [0, 2 * 3.14159] and the advance [delta_time * 0.5] lies in
    [0, 2 * 3.14159]. *)
Theorem camera_orbit_single_wrap (delta_time : R) (s : SimpleRenderer) :
  let a := camera_orbit_angle s + delta_time * 0.5 in
  let s' := state (update_animation delta_time s) in
  (a > 2 * 3.14159 -> camera_orbit_angle s' = a - 2 * 3.14159) /\
  (a <= 2 * 3.14159 -> camera_orbit_angle s' = a) /\
  (0 <= camera_orbit_angle s <= 2 * 3.14159 ->
   0 <= delta_time * 0.5 <= 2 * 3.14159 ->
   0 <= camera_orbit_angle s' <= 2 * 3.14159 /\
   0 <= camera_orbit_angle s' < 2 * PI).
Proof.
  cbv zeta. rewrite camera_update_animation. cbv zeta.
  pose proof PI_above_314159 as HPI.
  case_bool_decide as Hgt; repeat split; intros; try lra.
Qed.

(** C8 at a concrete input: a quarter of a second from the initial angle. *)
Lemma camera_orbit_single_wrap_witness :
  let s := create_simple_renderer 32767 800 600 0 in
  (0 <= camera_orbit_angle s <= 2 * 3.14159) /\
  (0 <= 0.25 * 0.5 <= 2 * 3.14159) /\
  0 <= camera_orbit_angle (state (update_animation 0.25 s)) < 2 * PI.
Proof.
  cbv zeta.
  assert (Ha : 0 <= camera_orbit_angle (create_simple_renderer 32767 800 600 0)
               <= 2 * 3.14159) by (cbn; lra).
  assert (Hd : 0 <= 0.25 * 0.5 <= 2 * 3.14159) by lra.
  split; [exact Ha|]. split; [exact Hd|].
  exact (proj2 (proj2 (proj2
    (camera_orbit_single_wrap 0.25 (create_simple_renderer 32767 800 600 0)))
    Ha Hd)).
Defined.

(** C8, counterexample.  One update with [delta_time = 100] on a fresh
    renderer: the angle becomes [50 - 2 * 3.14159], which is not below
    [2 * PI]; a single subtraction does not bring it back. *)
Lemma camera_orbit_escapes :
  let s := create_simple_renderer 32767 800 600 0 in
  let s' := state (update_animation 100 s) in
  camera_orbit_angle s' = 50 - 2 * 3.14159 /\
  ~ (0 <= camera_orbit_angle s' < 2 * PI).
Proof.
  cbv zeta. rewrite camera_update_animation. cbv zeta.
  change (camera_orbit_angle (create_simple_renderer 32767 800 600 0)) with 0.
  pose proof PI_4 as HPI.
  case_bool_decide as Hgt; [|lra].
  split; lra.
Qed.

Lemma cubes_create (RAND_MAX w h r : Z) :
  cubes (create_simple_renderer RAND_MAX w h r)
  = [Cube.mk 0 0 0 1 (Float3 1 0 0) (1 + IZR r / IZR RAND_MAX * 2) 0].
Proof. reflexivity. Qed.

Lemma update_cube_phase (delta_time : R) (cube : Cube.t) :
  Cube.animation_time (update_cube delta_time cube)
  = Cube.animation_time cube + delta_time * Cube.rotation_speed cube.
Proof. reflexivity. Qed.

(** The assignment [cube.y = base_y + sin(cube.animation_time) * 0.5f] reads
    [base_y] from the [y] that the previous call left. *)
Lemma update_cube_y (delta_time : R) (cube : Cube.t) :
  Cube.y (update_cube delta_time cube)
  = Cube.y cube + sin (Cube.animation_time (update_cube delta_time cube)) * 0.5.
Proof. reflexivity. Qed.

(** C1, the code at the failing input.  The default cube is created at
    [y = 0]; with [rand() = 0] its speed is 1.  After two calls of
    [update_animation] with [delta_time = 1] its phase is 2 and its [y] is
    [0.5 * sin 1 + 0.5 * sin 2]: the offset of the first call is still in
    it, so [y] is not the creation-time [y] plus [0.5 * sin phase]. *)
Theorem update_animation_compounds_y :
  let s0 := create_simple_renderer 32767 800 600 0 in
  let s2 := update_animations [1; 1] s0 in
  exists c0 c2,
    cubes s0 = [c0] /\ cubes s2 = [c2] /\
    Cube.y c0 = 0 /\
    Cube.animation_time c2 = 2 /\
    Cube.y c2 = 0.5 * sin 1 + 0.5 * sin 2 /\
    Cube.y c2 <> Cube.y c0 + 0.5 * sin (Cube.animation_time c2).
Proof.
  cbv zeta. cbn [update_animations].
  rewrite !cubes_update_animation, cubes_create. cbn [map].
  eexists _, _. split; [reflexivity|]. split; [reflexivity|].
  rewrite !update_cube_y, !update_cube_phase.
  cbn [Cube.y Cube.animation_time Cube.rotation_speed update_cube].
  replace (1 + 0 / 32767 * 2) with 1 by lra.
  replace (0 + 1 * 1) with 1 by lra.
  replace (1 + 1 * 1) with 2 by lra.
  assert (Hs : 0 < sin 1).
  { apply sin_gt_0; [lra|]. pose proof PI2_1. lra. }
  repeat split; lra.
Qed.

(** C2, counterexample.  A fresh renderer is paused with
    [toggle_animation]: it is reachable and [animation_enabled] is false.
    One direct call of [update_animation] with [delta_time = 1], the
    function the host reaches through the bridge, changes the phase of the
    default cube (0 to 1), its height (0 to [0.5 * sin 1]), its colour (the
    green channel leaves 0), the camera orbit angle (0 to 0.5) and the
    animation clock (0 to 1). *)
Lemma paused_update_animation_changes_state :
  let s := state (toggle_animation (create_simple_renderer 32767 800 600 0)) in
  let s' := state (update_animation 1 s) in
  reachable true 32767 s /\
  animation_enabled s = false /\
  (camera_orbit_angle s = 0 /\ camera_orbit_angle s' = 0.5) /\
  (animation_time s = 0 /\ animation_time s' = 1) /\
  exists c c',
    cubes s = [c] /\ cubes s' = [c'] /\
    (Cube.animation_time c = 0 /\ Cube.animation_time c' = 1) /\
    (Cube.y c = 0 /\ 0 < Cube.y c') /\
    (at1 (Cube.color c) = 0 /\ 0.5 < at1 (Cube.color c')).
Proof.
  cbv zeta.
  set (s := state (toggle_animation (create_simple_renderer 32767 800 600 0))).
  assert (Hc : cubes s = cubes (create_simple_renderer 32767 800 600 0))
    by reflexivity.
  split; [|split; [reflexivity|split; [|split]]].
  - apply (reachable_call true 32767 _ ToggleAnimation); [|exact I].
    apply reachable_create. unfold rand_value. lia.
  - rewrite camera_update_animation. cbv zeta.
    change (camera_orbit_angle s) with 0.
    split; [reflexivity|]. case_bool_decide; lra.
  - unfold state at 1. rewrite update_animation_run. fields.
    change (animation_time s) with 0. split; [reflexivity | lra].
  - rewrite cubes_update_animation, Hc, cubes_create. cbn [map].
    eexists _, _. split; [reflexivity|]. split; [reflexivity|].
    rewrite update_cube_y, update_cube_phase.
    cbn [Cube.y Cube.animation_time Cube.rotation_speed Cube.color
         update_cube at1].
    replace (0 + 1 * (1 + 0 / 32767 * 2)) with 1 by lra.
    pose proof PI_above_314159 as HPI.
    assert (H1 : 0 < sin 1) by (apply sin_gt_0; lra).
    assert (H2 : 0 < sin (1 + 2.094)) by (apply sin_gt_0; lra).
    repeat split; lra.
Qed.

(** ** Reachable renderers *)

Lemma state_bind_ret {A : Type} (m : M A) (s : SimpleRenderer) :
  state ((m ;; ret tt)%M s) = state (m s).
Proof. reflexivity. Qed.

Lemma cubes_render_frame (win32 : bool) (inp : frame_inputs)
    (s : SimpleRenderer) :
  cubes (state (render_frame win32 inp s))
  = if animation_enabled s
    then map (update_cube (frame_delta_time inp s)) (cubes s)
    else cubes s.
Proof.
  rewrite render_frame_state. unfold state at 1.
  rewrite animate_frame_run. fields.
  destruct (animation_enabled s); [|reflexivity].
  rewrite cubes_update_animation. reflexivity.
Qed.

(** The cubes after one call of the interface. *)
Lemma cubes_perform (win32 : bool) (RAND_MAX : Z) (c : call)
    (s : SimpleRenderer) :
  cubes (state (perform win32 RAND_MAX c s)) =
    match c with
    | RenderFrame inp =>
        if animation_enabled s
        then map (update_cube (frame_delta_time inp s)) (cubes s)
        else cubes s
    | AddCube x y z size r =>
        cubes s ++
        [Cube.mk x y z size (Float3 1 0 0) (1 + IZR r / IZR RAND_MAX * 2) 0]
    | UpdateAnimation delta_time => map (update_cube delta_time) (cubes s)
    | MoveObject index x y z =>
        if (index <? length (cubes s))%nat
        then alter (Cube.set_position x y z) index (cubes s)
        else cubes s
    | _ => cubes s
    end.
Proof.
  destruct c; cbn [perform].
  - rewrite state_bind_ret. apply cubes_render_frame.
  - reflexivity.
  - reflexivity.
  - reflexivity.
  - unfold enable_native_rendering. rewrite bind_modify.
    unfold state, bind, cout, emit. cbn [fst snd].
    set (s1 := set_native_rendering_enabled true s).
    assert (Hc : cubes (state (initialize_d3d11 win32 d s1)) = cubes s).
    { unfold initialize_d3d11. destruct win32; [|reflexivity].
      rewrite bind_get. destruct (window_handle s1 =? 0)%Z; [reflexivity|].
      rewrite bind_modify. destruct (SUCCEEDED (hr d)); reflexivity. }
    unfold state in Hc.
    destruct (initialize_d3d11 win32 d s1) as [[[|] s2] o];
      cbn [fst snd] in *; exact Hc.
  - destruct win32; reflexivity.
  - rewrite state_bind_ret. unfold initialize_d3d11.
    destruct win32; [|reflexivity].
    rewrite bind_get. destruct (window_handle s =? 0)%Z; [reflexivity|].
    rewrite bind_modify. destruct (SUCCEEDED (hr d)); reflexivity.
  - apply cubes_update_animation.
  - reflexivity.
  - reflexivity.
  - unfold move_object, when. rewrite bind_get.
    destruct (index <? length (cubes s))%nat; reflexivity.
Qed.

Lemma rand_speed (RAND_MAX r : Z) :
  (0 < RAND_MAX)%Z -> rand_value RAND_MAX r ->
  1 <= 1 + IZR r / IZR RAND_MAX * 2 <= 3.
Proof.
  intros Hm [H0 H1].
  apply IZR_lt in Hm. apply IZR_le in H0, H1.
  assert (Hi : 0 < / IZR RAND_MAX) by (apply Rinv_0_lt_compat; exact Hm).
  assert (Hu : IZR RAND_MAX * / IZR RAND_MAX = 1) by (apply Rinv_r; lra).
  unfold Rdiv. nra.
Qed.






(** * Further properties of the renderer *)

(** ** What a frame and an animation step leave alone *)

Lemma render_frame_state_explicit (win32 : bool) (inp : frame_inputs)
    (s : SimpleRenderer) :
  state (render_frame win32 inp s) =
    let s0 := set_frame_count (wrap64 (frame_count s + 1)) s in
    if animation_enabled s then
      state (update_animation (frame_delta_time inp s)
               (set_last_time (clock_now inp) s0))
    else s0.
Proof.
  rewrite render_frame_state. unfold state at 1. rewrite animate_frame_run.
  reflexivity.
Qed.

Lemma update_animation_same_device (delta_time : R) (s : SimpleRenderer) :
  same_device s (state (update_animation delta_time s)).
Proof.
  unfold same_device, state. rewrite update_animation_run. fields.
  repeat split; reflexivity.
Qed.

Lemma render_frame_same_device (win32 : bool) (inp : frame_inputs)
    (s : SimpleRenderer) :
  same_device s (state (render_frame win32 inp s)).
Proof.
  rewrite render_frame_state_explicit. cbv zeta.
  destruct (animation_enabled s).
  - pose proof (update_animation_same_device (frame_delta_time inp s)
      (set_last_time (clock_now inp)
         (set_frame_count (wrap64 (frame_count s + 1)) s))) as H.
    unfold same_device in *. fields. exact H.
  - unfold same_device. fields. repeat split; reflexivity.
Qed.

(** ** Enabling native rendering: the outcome of one call *)

Lemma enable_native_rendering_run (win32 : bool) (d : d3d_create_result)
    (s : SimpleRenderer) :
  let ok := win32 && negb (window_handle s =? 0)%Z && SUCCEEDED (hr d) in
  let s' := state (enable_native_rendering win32 d s) in
  native_rendering_enabled s' = ok /\
  directx_initialized s' = (ok || directx_initialized s) /\
  window_handle s' = window_handle s /\
  (ok = true ->
     swap_chain s' = out_swap_chain d /\ d3d_device s' = out_device d /\
     d3d_context s' = out_context d /\
     output (enable_native_rendering win32 d s)
     = [Cout SayNativeEnabled; Cout SayD3D11Created; Cout SayDeviceCreated]).
Proof.
  cbv zeta.
  unfold enable_native_rendering, initialize_d3d11, bind, modify, get, cout,
    emit, ret, state, output.
  destruct win32; cbn [andb fst snd]; fields.
  - destruct (window_handle s =? 0)%Z; cbn [negb andb fst snd]; fields.
    + repeat split; first [reflexivity | discriminate].
    + destruct (SUCCEEDED (hr d)); cbn [fst snd]; fields;
        repeat split; first [reflexivity | discriminate].
  - repeat split; first [reflexivity | discriminate].
Qed.

(** The two mode flags after one call of the interface: only
    [enable_native_rendering] writes them. *)
Lemma perform_flags (win32 : bool) (RAND_MAX : Z) (c : call)
    (s : SimpleRenderer) :
  let s' := state (perform win32 RAND_MAX c s) in
  match c with
  | EnableNativeRendering d =>
      let ok := win32 && negb (window_handle s =? 0)%Z && SUCCEEDED (hr d) in
      native_rendering_enabled s' = ok /\
      directx_initialized s' = (ok || directx_initialized s)
  | _ =>
      native_rendering_enabled s' = native_rendering_enabled s /\
      directx_initialized s' = directx_initialized s
  end.
Proof.
  cbv zeta. destruct c; cbn [perform]; try (split; reflexivity).
  - rewrite state_bind_ret.
    destruct (render_frame_same_device win32 inp s) as (_ & _ & _ & Hn & Hd & _).
    auto.
  - destruct (enable_native_rendering_run win32 d s) as (Hn & Hd & _). auto.
  - destruct win32; split; reflexivity.
  - rewrite state_bind_ret.
    destruct (initialize_d3d11_run win32 d s) as (_ & Hn & Hd & _). auto.
  - destruct (update_animation_same_device delta_time s)
      as (_ & _ & _ & Hn & Hd & _).
    auto.
  - unfold move_object, when. rewrite bind_get.
    destruct (index <? length (cubes s))%nat; split; reflexivity.
Qed.

(** X1.  When the device initialisation succeeds during
    [enable_native_rendering] (which needs a build with [_WIN32], a window
    handle that is not null and a successful [HRESULT]), both mode flags are
    true when the call returns, the renderer holds the swap chain, device
    and context it was handed, three console lines are written, the status
    is the native one and every following frame runs the Direct3D branch. *)
Theorem enable_native_rendering_success (win32 : bool) (d : d3d_create_result)
    (s : SimpleRenderer) :
  result (initialize_d3d11 win32 d s) = true ->
  let s' := state (enable_native_rendering win32 d s) in
  (win32 = true /\ window_handle s <> 0%Z /\ (0 <= hr d)%Z) /\
  native_rendering_enabled s' = true /\
  directx_initialized s' = true /\
  (swap_chain s' = out_swap_chain d /\ d3d_device s' = out_device d /\
   d3d_context s' = out_context d) /\
  output (enable_native_rendering win32 d s)
  = [Cout SayNativeEnabled; Cout SayD3D11Created; Cout SayDeviceCreated] /\
  get_renderer_info s' = "Native DirectX C++ Renderer (Animated)"%string /\
  forall (inps : list frame_inputs) (inp : frame_inputs),
    let s'' := render_frames win32 inps s' in
    get_renderer_info s'' = "Native DirectX C++ Renderer (Animated)"%string /\
    render_frame win32 inp s'' =
      (count_frame ;; animate_frame inp ;; render_native win32 inp ;;
       ret true)%M s''.
Proof.
  intros H. cbv zeta.
  destruct (initialize_d3d11_run win32 d s) as (R0 & _). rewrite R0 in H.
  destruct (enable_native_rendering_run win32 d s) as (Hn & Hd & _ & Hp).
  rewrite H in Hn, Hd. cbn [orb] in Hd.
  destruct (Hp H) as (Hs & Hv & Hc & Ho).
  split.
  { destruct win32; [|discriminate]. cbn [andb] in H.
    apply andb_prop in H as [Hw Hh]. repeat split.
    - intros E. rewrite E in Hw. discriminate.
    - unfold SUCCEEDED in Hh. lia. }
  split; [exact Hn|]. split; [exact Hd|]. split; [auto|]. split; [exact Ho|].
  split.
  - unfold get_renderer_info. rewrite Hn, Hd. reflexivity.
  - intros inps inp.
    destruct (render_frames_flags win32 inps
                (state (enable_native_rendering win32 d s))) as (Fn & Fd).
    rewrite Hn in Fn. rewrite Hd in Fd. split.
    + unfold get_renderer_info. rewrite Fn, Fd. reflexivity.
    + rewrite render_frame_bind, Fn, Fd. reflexivity.
Qed.

(** X1 at a concrete input: a window handle is set, the device is created. *)
Lemma enable_native_rendering_success_witness :
  let s := state (set_window_handle true 4242
                    (create_simple_renderer 32767 800 600 0)) in
  let d := D3DCreate 0 11 12 13 in
  result (initialize_d3d11 true d s) = true /\
  get_renderer_info (state (enable_native_rendering true d s))
  = "Native DirectX C++ Renderer (Animated)"%string.
Proof.
  cbv zeta.
  assert (H : result (initialize_d3d11 true (D3DCreate 0 11 12 13)
                        (state (set_window_handle true 4242
                                  (create_simple_renderer 32767 800 600 0))))
              = true) by reflexivity.
  split; [exact H|].
  exact (proj1 (proj2 (proj2 (proj2 (proj2 (proj2
    (enable_native_rendering_success true (D3DCreate 0 11 12 13) _ H))))))).
Defined.

(** The pending pair of flags is not reachable. *)
Lemma reachable_requested_ready (win32 : bool) (RAND_MAX : Z)
    (s : SimpleRenderer) :
  reachable win32 RAND_MAX s ->
  (native_rendering_enabled s = true -> directx_initialized s = true) /\
  (directx_initialized s = true -> win32 = true).
Proof.
  intros Hs. induction Hs as [w h r Hr | s c Hs (IH1 & IH2) Hc].
  - split; discriminate.
  - pose proof (perform_flags win32 RAND_MAX c s) as F. cbv zeta in F.
    destruct c; try (destruct F as (-> & ->); split; assumption).
    destruct F as (-> & ->).
    destruct win32; cbn [andb orb]; [|split; [discriminate | exact IH2]].
    split; [|reflexivity].
    intros ->. reflexivity.
Qed.

(** X2.  On every renderer a host can reach, native rendering is requested
    only if the device is ready, and the device is ready only on a build
    with [_WIN32].  So between two calls the status is never the
    initialising one, and no frame runs the pending branch or writes its
    console line. *)
Theorem pending_never_observed (win32 : bool) (RAND_MAX : Z)
    (s : SimpleRenderer) :
  reachable win32 RAND_MAX s ->
  (native_rendering_enabled s = true -> directx_initialized s = true) /\
  (directx_initialized s = true -> win32 = true) /\
  get_renderer_info s
  <> "Native DirectX C++ Renderer (Initializing...)"%string /\
  forall inp,
    (exists p, p <> NativePending /\
       render_frame win32 inp s =
         (count_frame ;; animate_frame inp ;; render_path_body win32 inp p ;;
          ret true)%M s) /\
    Forall (fun e => effect_path e <> Some NativePending)
      (output (render_frame win32 inp s)).
Proof.
  intros Hs.
  destruct (reachable_requested_ready win32 RAND_MAX s Hs) as (H1 & H2).
  split; [exact H1|]. split; [exact H2|].
  assert (Hp : spec_render_path (native_rendering_enabled s)
                 (directx_initialized s) <> NativePending).
  { destruct (native_rendering_enabled s); [|discriminate].
    rewrite (H1 eq_refl). discriminate. }
  split.
  - unfold get_renderer_info.
    destruct (native_rendering_enabled s); [|discriminate].
    rewrite (H1 eq_refl). discriminate.
  - intros inp. split.
    + eexists. split; [exact Hp|]. apply render_frame_bind.
    + pose proof (render_frame_run win32 inp s) as E. cbv zeta in E.
      rewrite E. unfold output at 1. cbn [snd].
      eapply Forall_impl; [apply render_path_body_effects|].
      intros e He. cbn beta in He. rewrite He. congruence.
Qed.

(** X2 at a concrete input: a failed attempt to enable native rendering. *)
Lemma pending_never_observed_witness :
  let s := state (perform true 32767 (EnableNativeRendering (D3DCreate 0 1 2 3))
                    (create_simple_renderer 32767 800 600 0)) in
  reachable true 32767 s /\
  get_renderer_info s
  <> "Native DirectX C++ Renderer (Initializing...)"%string.
Proof.
  cbv zeta.
  assert (H : reachable true 32767
    (state (perform true 32767 (EnableNativeRendering (D3DCreate 0 1 2 3))
              (create_simple_renderer 32767 800 600 0)))).
  { apply reachable_call; [|exact I].
    apply reachable_create. unfold rand_value. lia. }
  split; [exact H|].
  exact (proj1 (proj2 (proj2 (pending_never_observed true 32767 _ H)))).
Defined.

(** X3.  No call of the interface resets [directx_initialized]: once the
    device has been created the flag stays true over any run of calls.  In
    particular a later [enable_native_rendering] that fails leaves the flags
    at (false, true): the status is the fallback one although the device
    objects are still held. *)
Theorem device_ready_is_permanent (win32 : bool) (RAND_MAX : Z)
    (cs : list call) (s : SimpleRenderer) :
  directx_initialized s = true ->
  directx_initialized (perform_all win32 RAND_MAX cs s) = true /\
  forall d,
    result (initialize_d3d11 win32 d s) = false ->
    let s' := state (enable_native_rendering win32 d s) in
    native_rendering_enabled s' = false /\
    directx_initialized s' = true /\
    get_renderer_info s' = "OpenGL Fallback C++ Renderer"%string.
Proof.
  intros H. split.
  - revert s H. induction cs as [|c cs IH]; intros s H; cbn [perform_all];
      [exact H|].
    apply IH.
    pose proof (perform_flags win32 RAND_MAX c s) as F. cbv zeta in F.
    destruct c; try (destruct F as (_ & ->); exact H).
    destruct F as (_ & ->). rewrite H. apply orb_true_r.
  - intros d Hd. cbv zeta.
    destruct (initialize_d3d11_run win32 d s) as (R0 & _). rewrite R0 in Hd.
    destruct (enable_native_rendering_run win32 d s) as (Hn & Hr & _).
    rewrite Hd in Hn, Hr. cbn [orb] in Hr. rewrite H in Hr.
    split; [exact Hn|]. split; [exact Hr|].
    unfold get_renderer_info. rewrite Hn. reflexivity.
Qed.

(** X3 at a concrete input: the device is created, the window handle is
    then cleared and enabling is tried again. *)
Lemma device_ready_is_permanent_witness :
  let s := perform_all true 32767
             [SetWindowHandle 4242; EnableNativeRendering (D3DCreate 0 11 12 13)]
             (create_simple_renderer 32767 800 600 0) in
  let cs := [SetWindowHandle 0; EnableNativeRendering (D3DCreate 0 21 22 23);
             RenderFrame (FrameInputs 0 1 0 0)] in
  directx_initialized s = true /\
  directx_initialized (perform_all true 32767 cs s) = true.
Proof.
  cbv zeta.
  assert (H : directx_initialized
    (perform_all true 32767
       [SetWindowHandle 4242; EnableNativeRendering (D3DCreate 0 11 12 13)]
       (create_simple_renderer 32767 800 600 0)) = true) by reflexivity.
  split; [exact H|].
  exact (proj1 (device_ready_is_permanent true 32767
    [SetWindowHandle 0; EnableNativeRendering (D3DCreate 0 21 22 23);
     RenderFrame (FrameInputs 0 1 0 0)] _ H)).
Defined.

(** ** Counting frames and cubes over a run of calls *)

Lemma count_cons {A : Type} (f : A -> bool) (a : A) (l : list A) :
  count f (a :: l) = ((if f a then 1 else 0) + count f l)%nat.
Proof.
  unfold count. rewrite filter_cons.
  destruct (f a); case_decide; try congruence; reflexivity.
Qed.

Lemma perform_frame_count (win32 : bool) (RAND_MAX : Z) (c : call)
    (s : SimpleRenderer) :
  frame_count (state (perform win32 RAND_MAX c s))
  = if is_render_frame c then wrap64 (frame_count s + 1) else frame_count s.
Proof.
  destruct c; cbn [perform is_render_frame]; try reflexivity.
  - rewrite state_bind_ret. apply render_frame_count.
  - unfold enable_native_rendering, initialize_d3d11, bind, modify, get, cout,
      emit, ret, state.
    destruct win32; cbn [fst snd]; fields; [|reflexivity].
    destruct (window_handle s =? 0)%Z; cbn [fst snd]; fields; [reflexivity|].
    destruct (SUCCEEDED (hr d)); reflexivity.
  - destruct win32; reflexivity.
  - rewrite state_bind_ret. unfold initialize_d3d11, bind, modify, get, cout,
      emit, ret, state.
    destruct win32; cbn [fst snd]; fields; [|reflexivity].
    destruct (window_handle s =? 0)%Z; cbn [fst snd]; fields; [reflexivity|].
    destruct (SUCCEEDED (hr d)); reflexivity.
  - destruct (update_animation_frame delta_time s) as (_ & _ & _ & H & _).
    exact H.
  - unfold move_object, when. rewrite bind_get.
    destruct (index <? length (cubes s))%nat; reflexivity.
Qed.

Lemma perform_all_frame_count (win32 : bool) (RAND_MAX : Z) (cs : list call)
    (s : SimpleRenderer) (k : Z) :
  frame_count s = wrap64 k ->
  frame_count (perform_all win32 RAND_MAX cs s)
  = wrap64 (k + Z.of_nat (count is_render_frame cs)).
Proof.
  revert s k. induction cs as [|c cs IH]; intros s k H; cbn [perform_all].
  - rewrite H. f_equal. unfold count. cbn. lia.
  - rewrite count_cons.
    rewrite (IH _ (if is_render_frame c then k + 1 else k)%Z).
    + f_equal. destruct (is_render_frame c); lia.
    + rewrite perform_frame_count, H. destruct (is_render_frame c); [|reflexivity].
      unfold wrap64. rewrite Zplus_mod_idemp_l. reflexivity.
Qed.

(** X4.  [get_frame_count] counts the calls of [render_frame] and nothing
    else: after any run of calls on a new renderer it is the number of
    frames rendered, modulo [2^64], whatever other calls came in between;
    it always lies in the range of a [uint64_t]. *)
Theorem frame_count_counts_frames (win32 : bool) (RAND_MAX w h r : Z)
    (cs : list call) :
  let s := perform_all win32 RAND_MAX cs (create_simple_renderer RAND_MAX w h r) in
  get_frame_count s = (Z.of_nat (count is_render_frame cs) mod 2 ^ 64)%Z /\
  (0 <= get_frame_count s < 2 ^ 64)%Z.
Proof.
  cbv zeta. unfold get_frame_count.
  rewrite (perform_all_frame_count win32 RAND_MAX cs _ 0) by reflexivity.
  unfold wrap64. rewrite Z.add_0_l. split; [reflexivity|].
  apply Z.mod_pos_bound. lia.
Qed.

Lemma perform_cubes_length (win32 : bool) (RAND_MAX : Z) (c : call)
    (s : SimpleRenderer) :
  length (cubes (state (perform win32 RAND_MAX c s)))
  = ((if is_add_cube c then 1 else 0) + length (cubes s))%nat.
Proof.
  rewrite cubes_perform. destruct c; cbn [is_add_cube]; try reflexivity.
  - destruct (animation_enabled s); [apply length_map | reflexivity].
  - rewrite length_app. cbn. lia.
  - apply length_map.
  - destruct (index <? length (cubes s))%nat; [apply length_alter | reflexivity].
Qed.

(** X5.  Cubes are only ever added: after any run of calls the number of
    cubes is the number before plus the number of [add_cube] calls in the
    run, so a new renderer driven by a run holds one cube more than the
    run has [add_cube] calls; no call removes a cube. *)
Theorem cube_count (win32 : bool) (RAND_MAX : Z) (cs : list call)
    (s : SimpleRenderer) :
  length (cubes (perform_all win32 RAND_MAX cs s))
  = (length (cubes s) + count is_add_cube cs)%nat /\
  forall w h r,
    length (cubes (perform_all win32 RAND_MAX cs
                     (create_simple_renderer RAND_MAX w h r)))
    = (1 + count is_add_cube cs)%nat.
Proof.
  assert (A : forall t,
    length (cubes (perform_all win32 RAND_MAX cs t))
    = (length (cubes t) + count is_add_cube cs)%nat).
  { induction cs as [|c cs IH]; intros t; cbn [perform_all].
    - unfold count. cbn. lia.
    - rewrite IH, perform_cubes_length, count_cons. lia. }
  split; [apply A|].
  intros w h r. rewrite A, cubes_create. reflexivity.
Qed.

(** ** Cubes over a run of calls *)

(** X6.  [add_cube] appends: the new cube sits at the index that was the
    number of cubes, with the position and size given, colour (1, 0, 0),
    phase 0 and, when [rand()] is between 0 and a positive [RAND_MAX], a
    speed between 1 and 3; the cubes already there keep their index and
    content, and no other data member changes. *)
Theorem add_cube_appends (RAND_MAX : Z) (x y z size : R) (r : Z)
    (s : SimpleRenderer) :
  (0 < RAND_MAX)%Z -> rand_value RAND_MAX r ->
  let s' := state (add_cube RAND_MAX x y z size r s) in
  exists speed,
    1 <= speed <= 3 /\
    cubes s' !! length (cubes s)
    = Some (Cube.mk x y z size (Float3 1 0 0) speed 0) /\
    length (cubes s') = S (length (cubes s)) /\
    (forall i, (i < length (cubes s))%nat -> cubes s' !! i = cubes s !! i) /\
    s' = set_cubes (cubes s') s /\
    output (add_cube RAND_MAX x y z size r s) = [Cout (SayAddedCube x y z size)].
Proof.
  intros Hm Hr. cbv zeta.
  exists (1 + IZR r / IZR RAND_MAX * 2).
  split; [apply (rand_speed _ _ Hm Hr)|].
  change (cubes (state (add_cube RAND_MAX x y z size r s)))
    with (cubes s ++
          [Cube.mk x y z size (Float3 1 0 0) (1 + IZR r / IZR RAND_MAX * 2) 0]).
  split; [|split; [|split; [|split]]].
  - rewrite lookup_app_r by lia. rewrite Nat.sub_diag. reflexivity.
  - rewrite length_app. cbn. lia.
  - intros i Hi. apply lookup_app_l. exact Hi.
  - reflexivity.
  - reflexivity.
Qed.

(** X6 at a concrete input. *)
Lemma add_cube_appends_witness :
  let s := create_simple_renderer 32767 800 600 0 in
  (0 < 32767)%Z /\ rand_value 32767 16384 /\
  length (cubes (state (add_cube 32767 1 2 3 4 16384 s))) = 2%nat.
Proof.
  cbv zeta.
  assert (Hm : (0 < 32767)%Z) by lia.
  assert (Hr : rand_value 32767 16384) by (unfold rand_value; lia).
  split; [exact Hm|]. split; [exact Hr|].
  destruct (add_cube_appends 32767 1 2 3 4 16384
              (create_simple_renderer 32767 800 600 0) Hm Hr)
    as (speed & _ & _ & Hl & _).
  exact Hl.
Defined.

Lemma perform_cube_kept (win32 : bool) (RAND_MAX : Z) (c : call)
    (s : SimpleRenderer) (i : nat) (cube : Cube.t) :
  cubes s !! i = Some cube ->
  exists cube',
    cubes (state (perform win32 RAND_MAX c s)) !! i = Some cube' /\
    Cube.rotation_speed cube' = Cube.rotation_speed cube /\
    Cube.size cube' = Cube.size cube.
Proof.
  intros Hi. rewrite cubes_perform.
  assert (Hmap : forall d, exists cube',
    map (update_cube d) (cubes s) !! i = Some cube' /\
    Cube.rotation_speed cube' = Cube.rotation_speed cube /\
    Cube.size cube' = Cube.size cube).
  { intros d. exists (update_cube d cube). split; [|split; reflexivity].
    change (map (update_cube d) (cubes s)) with (update_cube d <$> cubes s).
    rewrite list_lookup_fmap, Hi. reflexivity. }
  destruct c; try (exists cube; repeat split; exact Hi).
  - destruct (animation_enabled s); [apply Hmap|].
    exists cube; repeat split; exact Hi.
  - exists cube. split; [|split; reflexivity].
    apply lookup_app_l_Some. exact Hi.
  - apply Hmap.
  - destruct (index <? length (cubes s))%nat;
      [|exists cube; repeat split; exact Hi].
    destruct (decide (index = i)) as [->|Hne].
    + exists (Cube.set_position x y z cube).
      rewrite list_lookup_alter_eq, Hi. repeat split.
    + exists cube. rewrite list_lookup_alter_ne by exact Hne.
      repeat split. exact Hi.
Qed.

(** X7.  The speed and the size of a cube are fixed when it is added: after
    any run of calls the cube is still at its index, with the speed and the
    size it had. *)
Theorem speed_and_size_are_fixed (win32 : bool) (RAND_MAX : Z)
    (cs : list call) (s : SimpleRenderer) (i : nat) (cube : Cube.t) :
  cubes s !! i = Some cube ->
  exists cube',
    cubes (perform_all win32 RAND_MAX cs s) !! i = Some cube' /\
    Cube.rotation_speed cube' = Cube.rotation_speed cube /\
    Cube.size cube' = Cube.size cube.
Proof.
  revert s cube. induction cs as [|c cs IH]; intros s cube Hi; cbn [perform_all].
  - exists cube. repeat split. exact Hi.
  - destruct (perform_cube_kept win32 RAND_MAX c s i cube Hi)
      as (c1 & H1 & Hs1 & Hz1).
    destruct (IH _ c1 H1) as (c2 & H2 & Hs2 & Hz2).
    exists c2. split; [exact H2|]. split; congruence.
Qed.

(** X7 at a concrete input: the default cube through a move, an animation
    step and a frame. *)
Lemma speed_and_size_are_fixed_witness :
  let s := create_simple_renderer 32767 800 600 0 in
  let cs := [MoveObject 0 1 2 3; UpdateAnimation 1;
             RenderFrame (FrameInputs 0 1 0 0)] in
  cubes s !! 0%nat = Some (Cube.mk 0 0 0 1 (Float3 1 0 0) (1 + 0 / 32767 * 2) 0) /\
  exists cube',
    cubes (perform_all true 32767 cs s) !! 0%nat = Some cube' /\
    Cube.rotation_speed cube' = 1 + 0 / 32767 * 2 /\
    Cube.size cube' = 1.
Proof.
  cbv zeta.
  assert (H : cubes (create_simple_renderer 32767 800 600 0) !! 0%nat
              = Some (Cube.mk 0 0 0 1 (Float3 1 0 0) (1 + 0 / 32767 * 2) 0))
    by reflexivity.
  split; [exact H|].
  exact (speed_and_size_are_fixed true 32767
           [MoveObject 0 1 2 3; UpdateAnimation 1;
            RenderFrame (FrameInputs 0 1 0 0)] _ 0 _ H).
Defined.

(** ** Pausing and resuming *)

(** X8.  [toggle_animation] flips [animation_enabled] and nothing else, and
    says which way; toggling twice gives back the renderer one started
    from. *)
Theorem toggle_animation_twice (s : SimpleRenderer) :
  let s1 := state (toggle_animation s) in
  animation_enabled s1 = negb (animation_enabled s) /\
  s1 = set_animation_enabled (negb (animation_enabled s)) s /\
  output (toggle_animation s) = [Cout (SayAnimation (negb (animation_enabled s)))] /\
  state (toggle_animation s1) = s.
Proof.
  cbv zeta. unfold toggle_animation, bind, modify, get, cout, emit, state, output.
  cbn [fst snd]. fields. repeat split.
  rewrite negb_involutive. destruct s; reflexivity.
Qed.

Lemma render_frame_animated (win32 : bool) (inp : frame_inputs)
    (s : SimpleRenderer) :
  animation_enabled s = true ->
  let s' := state (render_frame win32 inp s) in
  animation_enabled s' = true /\
  last_time s' = Some (clock_now inp) /\
  animation_time s' = animation_time s + frame_delta_time inp s.
Proof.
  intros H. cbv zeta. rewrite render_frame_state_explicit. cbv zeta.
  rewrite H. unfold state. rewrite update_animation_run. fields.
  repeat split. exact H.
Qed.

(** X9.  While animation stays enabled, [last_time] is the clock reading of
    the last frame rendered: after any run of frames it holds the reading of
    the last one and animation is still enabled, so that the next frame,
    whatever reading would initialise [last_time], steps every cube by its
    own reading minus that of the frame before it.  (One renderer, in a
    process where no other renderer renders in between.) *)
Theorem frames_measure_between_readings (win32 : bool)
    (inps : list frame_inputs) (inp : frame_inputs) (s : SimpleRenderer) :
  animation_enabled s = true ->
  let s' := render_frames win32 (inps ++ [inp]) s in
  animation_enabled s' = true /\
  last_time s' = Some (clock_now inp) /\
  forall next,
    frame_delta_time next s' = clock_now next - clock_now inp /\
    cubes (state (render_frame win32 next s'))
    = map (update_cube (clock_now next - clock_now inp)) (cubes s').
Proof.
  intros H. cbv zeta.
  assert (A : animation_enabled (render_frames win32 (inps ++ [inp]) s) = true
              /\ last_time (render_frames win32 (inps ++ [inp]) s)
                 = Some (clock_now inp)).
  { revert s H. induction inps as [|i0 inps IH]; intros s H;
      cbn [app render_frames].
    - destruct (render_frame_animated win32 inp s H) as (He & Hl & _). auto.
    - destruct (render_frame_animated win32 i0 s H) as (He & _).
      apply IH, He. }
  destruct A as (He & Hl).
  split; [exact He|]. split; [exact Hl|].
  intros next.
  assert (D : frame_delta_time next (render_frames win32 (inps ++ [inp]) s)
              = clock_now next - clock_now inp)
    by (unfold frame_delta_time; rewrite Hl; reflexivity).
  split; [exact D|].
  rewrite cubes_render_frame, He, D. reflexivity.
Qed.

(** X9 at a concrete input: frames at clock readings 1, 2 and 5, then one
    at 9. *)
Lemma frames_measure_between_readings_witness :
  let s := create_simple_renderer 32767 800 600 0 in
  let frames := [FrameInputs 0.5 1 0 0; FrameInputs 0 2 0 0] in
  animation_enabled s = true /\
  frame_delta_time (FrameInputs 0 9 0 0)
    (render_frames true (frames ++ [FrameInputs 0 5 0 0]) s)
  = 9 - 5.
Proof.
  cbv zeta.
  assert (H : animation_enabled (create_simple_renderer 32767 800 600 0) = true)
    by reflexivity.
  split; [exact H|].
  exact (proj1 (proj2 (proj2 (frames_measure_between_readings true
    [FrameInputs 0.5 1 0 0; FrameInputs 0 2 0 0] (FrameInputs 0 5 0 0) _ H))
    (FrameInputs 0 9 0 0))).
Defined.

Lemma render_frames_paused (win32 : bool) (inps : list frame_inputs)
    (s : SimpleRenderer) :
  animation_enabled s = false ->
  let s' := render_frames win32 inps s in
  animation_enabled s' = false /\ last_time s' = last_time s /\
  cubes s' = cubes s /\ animation_time s' = animation_time s /\
  camera_orbit_angle s' = camera_orbit_angle s.
Proof.
  revert s. induction inps as [|inp inps IH]; intros s H; cbv zeta;
    cbn [render_frames]; [auto|].
  rewrite (render_frame_paused win32 inp s H).
  destruct (IH (set_frame_count (wrap64 (frame_count s + 1)) s) H)
    as (-> & -> & -> & -> & ->).
  fields. auto.
Qed.

(** X10.  A pause is not taken out of the measured time: [last_time] is
    written only by animated frames, so when animation is switched off, any
    number of frames is rendered and animation is switched on again, the
    first animated frame measures the time since the last animated frame
    before the pause and steps every cube by that whole interval. *)
Theorem resume_measures_the_pause (win32 : bool) (paused : list frame_inputs)
    (inp : frame_inputs) (s : SimpleRenderer) (t0 : R) :
  animation_enabled s = true ->
  last_time s = Some t0 ->
  let s1 := state (toggle_animation s) in
  let s2 := render_frames win32 paused s1 in
  let s3 := state (toggle_animation s2) in
  animation_enabled s3 = true /\
  frame_delta_time inp s3 = clock_now inp - t0 /\
  cubes (state (render_frame win32 inp s3))
  = map (update_cube (clock_now inp - t0)) (cubes s) /\
  animation_time (state (render_frame win32 inp s3))
  = animation_time s + (clock_now inp - t0).
Proof.
  intros He Hl. cbv zeta.
  set (s1 := state (toggle_animation s)).
  assert (H1 : animation_enabled s1 = false) by (cbn; rewrite He; reflexivity).
  destruct (render_frames_paused win32 paused s1 H1) as (E2 & L2 & C2 & A2 & _).
  set (s2 := render_frames win32 paused s1) in *.
  set (s3 := state (toggle_animation s2)).
  assert (E3 : animation_enabled s3 = true) by (cbn; rewrite E2; reflexivity).
  assert (L3 : last_time s3 = Some t0) by (cbn; rewrite L2; exact Hl).
  assert (D3 : frame_delta_time inp s3 = clock_now inp - t0)
    by (unfold frame_delta_time; rewrite L3; reflexivity).
  split; [exact E3|]. split; [exact D3|]. split.
  - rewrite cubes_render_frame, E3, D3.
    change (cubes s3) with (cubes s2). rewrite C2. reflexivity.
  - destruct (render_frame_animated win32 inp s3 E3) as (_ & _ & ->).
    rewrite D3. change (animation_time s3) with (animation_time s2).
    rewrite A2. reflexivity.
Qed.

(** X10 at a concrete input: last animated frame at 1, pause over readings 2
    and 50, resume with a frame at 60. *)
Lemma resume_measures_the_pause_witness :
  let s := state (render_frame true (FrameInputs 0 1 0 0)
                    (create_simple_renderer 32767 800 600 0)) in
  let s3 := state (toggle_animation
              (render_frames true [FrameInputs 0 2 0 0; FrameInputs 0 50 0 0]
                 (state (toggle_animation s)))) in
  animation_enabled s = true /\ last_time s = Some 1 /\
  frame_delta_time (FrameInputs 0 60 0 0) s3 = 60 - 1.
Proof.
  cbv zeta.
  destruct (render_frame_animated true (FrameInputs 0 1 0 0)
              (create_simple_renderer 32767 800 600 0) eq_refl)
    as (He & Hl & _).
  split; [exact He|]. split; [exact Hl|].
  exact (proj1 (proj2 (resume_measures_the_pause true
    [FrameInputs 0 2 0 0; FrameInputs 0 50 0 0] (FrameInputs 0 60 0 0) _ 1
    He Hl))).
Defined.

(** ** Cubes over a run of animation steps *)

Lemma cubes_update_animations (deltas : list R) (s : SimpleRenderer) :
  cubes (update_animations deltas s)
  = map (update_cube_steps deltas) (cubes s).
Proof.
  revert s. induction deltas as [|d deltas IH]; intros s;
    cbn [update_animations].
  - unfold update_cube_steps. cbn [foldl]. symmetry. apply map_id.
  - rewrite IH, cubes_update_animation, map_map. reflexivity.
Qed.

Lemma update_cube_steps_fixed (deltas : list R) (cube : Cube.t) :
  let cube' := update_cube_steps deltas cube in
  Cube.animation_time cube'
  = Cube.animation_time cube + total deltas * Cube.rotation_speed cube /\
  Cube.x cube' = Cube.x cube /\ Cube.z cube' = Cube.z cube /\
  Cube.size cube' = Cube.size cube /\
  Cube.rotation_speed cube' = Cube.rotation_speed cube.
Proof.
  cbv zeta. revert cube.
  induction deltas as [|d deltas IH]; intros cube;
    unfold update_cube_steps; cbn [foldl total foldr].
  - repeat split. lra.
  - fold (update_cube_steps deltas (update_cube d cube)).
    destruct (IH (update_cube d cube)) as (-> & -> & -> & -> & ->).
    fold (total deltas). rewrite update_cube_phase.
    cbn [update_cube Cube.x Cube.z Cube.size Cube.rotation_speed].
    repeat split. lra.
Qed.

Lemma Forall2_map_self {A : Type} (P : A -> A -> Prop) (f : A -> A)
    (l : list A) :
  (forall a, P a (f a)) -> Forall2 P l (map f l).
Proof.
  intros H. induction l as [|a l IH]; cbn [map]; constructor; auto.
Qed.

(** X11.  A run of direct animation steps acts on each cube separately and
    only through the total time: the phase of a cube ends as its phase
    before plus the sum of the steps times its speed, while its [x], [z],
    size and speed are what they were; the number of cubes does not
    change. *)
Theorem phase_after_steps (deltas : list R) (s : SimpleRenderer) :
  Forall2 (fun c c' =>
             Cube.animation_time c'
             = Cube.animation_time c + total deltas * Cube.rotation_speed c /\
             Cube.x c' = Cube.x c /\ Cube.z c' = Cube.z c /\
             Cube.size c' = Cube.size c /\
             Cube.rotation_speed c' = Cube.rotation_speed c)
    (cubes s) (cubes (update_animations deltas s)).
Proof.
  rewrite cubes_update_animations. apply Forall2_map_self.
  intros c. apply update_cube_steps_fixed.
Qed.

Lemma update_cube_steps_zero (n : nat) (cube : Cube.t) :
  let cube' := update_cube_steps (replicate (S n) 0) cube in
  Cube.animation_time cube' = Cube.animation_time cube /\
  (Cube.animation_time cube = 0 -> at0 (Cube.color cube') = 0.5).
Proof.
  cbv zeta. revert cube. induction n as [|n IH]; intros cube.
  - unfold update_cube_steps. cbn [replicate foldl].
    rewrite update_cube_phase. split; [lra|].
    intros H0. unfold update_cube. cbn [Cube.color at0].
    replace (Cube.animation_time cube + 0 * Cube.rotation_speed cube)
      with 0 by lra.
    rewrite sin_0. lra.
  - change (update_cube_steps (replicate (S (S n)) 0) cube)
      with (update_cube_steps (replicate (S n) 0) (update_cube 0 cube)).
    destruct (IH (update_cube 0 cube)) as (Hp & Hc).
    rewrite update_cube_phase in Hp, Hc.
    split; [rewrite Hp; lra|].
    intros H0. apply Hc. lra.
Qed.

(** X13.  A step of length zero is not a no-op.  One or more calls of
    [update_animation] with [delta_time = 0] leave the phase of every cube
    and the animation clock where they were, yet the colour is computed
    again from the phase: a cube that was never animated (phase 0) ends with
    its first channel at 0.5.  The default cube of a new renderer, created
    red with first channel 1, is thus recoloured by a step that lets no
    time pass. *)
Theorem zero_steps_still_move (n : nat) (s : SimpleRenderer) :
  let s' := update_animations (replicate (S n) 0) s in
  animation_time s' = animation_time s /\
  Forall2 (fun c c' =>
             Cube.animation_time c' = Cube.animation_time c /\
             (Cube.animation_time c = 0 -> at0 (Cube.color c') = 0.5))
    (cubes s) (cubes s') /\
  forall RAND_MAX w h r,
    let t := create_simple_renderer RAND_MAX w h r in
    exists c c',
      cubes t = [c] /\
      cubes (update_animations (replicate (S n) 0) t) = [c'] /\
      at0 (Cube.color c) = 1 /\ at0 (Cube.color c') = 0.5.
Proof.
  cbv zeta. split; [|split].
  - generalize (S n). intros k. revert s. induction k as [|k IH]; intros s;
      cbn [replicate update_animations]; [reflexivity|].
    rewrite IH. unfold state. rewrite update_animation_run. fields. lra.
  - rewrite cubes_update_animations. apply Forall2_map_self.
    intros c. apply update_cube_steps_zero.
  - intros RAND_MAX w h r.
    rewrite cubes_update_animations, cubes_create. cbn [map].
    eexists _, _. split; [reflexivity|]. split; [reflexivity|].
    split; [reflexivity|].
    apply update_cube_steps_zero. reflexivity.
Qed.

(** X13 at a concrete input: three zero steps on a fresh renderer. *)
Lemma zero_steps_still_move_witness :
  let s := create_simple_renderer 32767 800 600 0 in
  Forall2 (fun c c' =>
             Cube.animation_time c' = Cube.animation_time c /\
             (Cube.animation_time c = 0 -> at0 (Cube.color c') = 0.5))
    (cubes s) (cubes (update_animations (replicate 3 0) s)).
Proof.
  exact (proj1 (proj2 (zero_steps_still_move 2
                         (create_simple_renderer 32767 800 600 0)))).
Defined.

(** ** The camera over a run of animation steps *)

Lemma camera_in_range_step (d : R) (s : SimpleRenderer) :
  0 <= camera_orbit_angle s <= 2 * 3.14159 ->
  0 <= d * 0.5 <= 2 * 3.14159 ->
  0 <= camera_orbit_angle (state (update_animation d s)) <= 2 * 3.14159.
Proof.
  intros Ha Hd. rewrite camera_update_animation. cbv zeta.
  case_bool_decide; lra.
Qed.

(** X14.  The camera angle stays wrapped over a whole run: if it starts in
    [0, 2 * 3.14159] and every step of the run advances it by an amount
    [delta_time * 0.5] in that same interval, then after the run it is
    again in [0, 2 * 3.14159], so in [0, 2 * PI); the camera distance and
    height are not touched by animation. *)
Theorem camera_orbit_stays_wrapped (deltas : list R) (s : SimpleRenderer) :
  0 <= camera_orbit_angle s <= 2 * 3.14159 ->
  Forall (fun d => 0 <= d * 0.5 <= 2 * 3.14159) deltas ->
  let s' := update_animations deltas s in
  0 <= camera_orbit_angle s' <= 2 * 3.14159 /\
  camera_orbit_angle s' < 2 * PI /\
  camera_distance s' = camera_distance s /\
  camera_height s' = camera_height s.
Proof.
  intros Ha Hd. cbv zeta.
  assert (A : 0 <= camera_orbit_angle (update_animations deltas s)
              <= 2 * 3.14159 /\
              camera_distance (update_animations deltas s) = camera_distance s /\
              camera_height (update_animations deltas s) = camera_height s).
  { revert s Ha. induction Hd as [|d deltas Hd0 Hd IH]; intros s Ha;
      cbn [update_animations]; [auto|].
    destruct (IH (state (update_animation d s))
                (camera_in_range_step d s Ha Hd0)) as (H1 & -> & ->).
    split; [exact H1|].
    destruct (update_animation_same_device d s)
      as (_ & _ & _ & _ & _ & _ & Hcd & Hch & _).
    auto. }
  destruct A as (A1 & A2 & A3).
  pose proof PI_above_314159.
  repeat split; try assumption; lra.
Qed.

(** X14 at a concrete input: three steps from the initial angle. *)
Lemma camera_orbit_stays_wrapped_witness :
  let s := create_simple_renderer 32767 800 600 0 in
  0 <= camera_orbit_angle s <= 2 * 3.14159 /\
  Forall (fun d => 0 <= d * 0.5 <= 2 * 3.14159) [12; 12; 0.25] /\
  camera_orbit_angle (update_animations [12; 12; 0.25] s) < 2 * PI.
Proof.
  cbv zeta.
  assert (Ha : 0 <= camera_orbit_angle (create_simple_renderer 32767 800 600 0)
               <= 2 * 3.14159) by (cbn; lra).
  assert (Hd : Forall (fun d => 0 <= d * 0.5 <= 2 * 3.14159) [12; 12; 0.25])
    by (repeat constructor; lra).
  split; [exact Ha|]. split; [exact Hd|].
  exact (proj1 (proj2 (camera_orbit_stays_wrapped [12; 12; 0.25] _ Ha Hd))).
Defined.

(** ** What a frame sends to the outside world *)

Lemma render_frame_output (win32 : bool) (inp : frame_inputs)
    (s : SimpleRenderer) :
  output (render_frame win32 inp s)
  = output (render_path_body win32 inp
              (spec_render_path (native_rendering_enabled s)
                                (directx_initialized s))
              (state (render_frame win32 inp s))).
Proof.
  rewrite render_frame_state.
  pose proof (render_frame_run win32 inp s) as E. cbv zeta in E.
  rewrite E at 1. reflexivity.
Qed.

Lemma render_fallback_output (s : SimpleRenderer) :
  output (render_fallback s)
  = GL (glClearColor (at0 (clear_color s)) (at1 (clear_color s))
                     (at2 (clear_color s)) 1)
    :: GL glClear
    :: flat_map draw_cube (cubes s)
       ++ (if (frame_count s mod 60 =? 0)%Z
           then [Cout (SayFallbackFrame (frame_count s) (length (cubes s)))]
           else []).
Proof.
  unfold render_fallback, when. rewrite bind_get, !bind_emit, bind_emit_all.
  unfold output. cbn [snd].
  destruct (frame_count s mod 60 =? 0)%Z; reflexivity.
Qed.

Lemma render_pending_output (s : SimpleRenderer) :
  output (render_pending s)
  = if (frame_count s mod 60 =? 0)%Z
    then [Cout (SayInitializing (frame_count s))] else [].
Proof.
  unfold render_pending, when. rewrite bind_get.
  destruct (frame_count s mod 60 =? 0)%Z; reflexivity.
Qed.

Lemma render_native_output (win32 : bool) (inp : frame_inputs)
    (s : SimpleRenderer) :
  output (render_native win32 inp s)
  = (if win32 && (negb (d3d_context s =? 0)%Z && negb (swap_chain s =? 0)%Z)
     then [D3D GetBuffer; D3D CreateRenderTargetView;
           D3D (ClearRenderTargetView (at0 (clear_color s))
                  (at1 (clear_color s)) (at2 (clear_color s)) 1);
           D3D OMSetRenderTargets; D3D (Present 1 0)]
          ++ (if negb (render_target inp =? 0)%Z
              then [D3D ReleaseRenderTarget] else [])
          ++ (if negb (back_buffer inp =? 0)%Z
              then [D3D ReleaseBackBuffer] else [])
     else [])
    ++ (if (frame_count s mod 60 =? 0)%Z
        then [Cout (SayNativeFrame (frame_count s) (length (cubes s)))]
        else []).
Proof.
  unfold render_native, when. rewrite bind_get.
  destruct win32, (negb (d3d_context s =? 0)%Z && negb (swap_chain s =? 0)%Z),
    (negb (render_target inp =? 0)%Z), (negb (back_buffer inp =? 0)%Z),
    (frame_count s mod 60 =? 0)%Z; reflexivity.
Qed.

Lemma count_app {A : Type} (f : A -> bool) (l1 l2 : list A) :
  count f (l1 ++ l2) = (count f l1 + count f l2)%nat.
Proof. unfold count. rewrite filter_app, length_app. reflexivity. Qed.

Lemma count_draw_cubes (l : list Cube.t) :
  count is_console (flat_map draw_cube l) = 0%nat /\
  count is_vertex (flat_map draw_cube l) = (24 * length l)%nat.
Proof.
  induction l as [|c l (IH1 & IH2)]; cbn [flat_map length].
  - split; reflexivity.
  - rewrite !count_app, IH1, IH2.
    assert (H1 : count is_console (draw_cube c) = 0%nat) by reflexivity.
    assert (H2 : count is_vertex (draw_cube c) = 24%nat) by reflexivity.
    rewrite H1, H2. split; lia.
Qed.

Lemma count_nil {A : Type} (f : A -> bool) : count f [] = 0%nat.
Proof. reflexivity. Qed.

Lemma count_fallback (f : effect -> bool) (s : SimpleRenderer) :
  f (GL glClear) = false ->
  (forall r g b a, f (GL (glClearColor r g b a)) = false) ->
  count f (output (render_fallback s))
  = (count f (flat_map draw_cube (cubes s))
     + count f (if (frame_count s mod 60 =? 0)%Z
                then [Cout (SayFallbackFrame (frame_count s)
                              (length (cubes s)))]
                else []))%nat.
Proof.
  intros H1 H2. rewrite render_fallback_output, !count_cons, count_app, H1, H2.
  reflexivity.
Qed.

(** X15.  A frame writes to the console only on every sixtieth value of the
    frame counter: a call of [render_frame] writes exactly one line when the
    counter it has just incremented is a multiple of 60, and no line
    otherwise, whichever branch it runs. *)
Theorem frame_log_cadence (win32 : bool) (inp : frame_inputs)
    (s : SimpleRenderer) :
  count is_console (output (render_frame win32 inp s))
  = if (wrap64 (frame_count s + 1) mod 60 =? 0)%Z then 1%nat else 0%nat.
Proof.
  rewrite render_frame_output.
  pose proof (render_frame_count win32 inp s) as Hc.
  set (s1 := state (render_frame win32 inp s)) in *.
  rewrite <- Hc.
  destruct (spec_render_path _ _); cbn [render_path_body].
  - rewrite render_native_output, count_app.
    destruct win32, (negb (d3d_context s1 =? 0)%Z && negb (swap_chain s1 =? 0)%Z),
      (negb (render_target inp =? 0)%Z), (negb (back_buffer inp =? 0)%Z),
      (frame_count s1 mod 60 =? 0)%Z; reflexivity.
  - rewrite render_pending_output.
    destruct (frame_count s1 mod 60 =? 0)%Z; reflexivity.
  - rewrite count_fallback by reflexivity.
    destruct (count_draw_cubes (cubes s1)) as (-> & _).
    destruct (frame_count s1 mod 60 =? 0)%Z; reflexivity.
Qed.

(** X16.  Cubes are drawn by the fallback branch only.  A frame rendered
    while native rendering is not requested issues 24 [glVertex3f] calls,
    the 12 edges of the wireframe, for each cube the renderer holds; a frame
    rendered while it is requested issues none: the native branches clear
    and present but draw no cube. *)
Theorem cubes_drawn_only_by_fallback (win32 : bool) (inp : frame_inputs)
    (s : SimpleRenderer) :
  count is_vertex (output (render_frame win32 inp s))
  = if native_rendering_enabled s then 0%nat
    else (24 * length (cubes s))%nat.
Proof.
  rewrite render_frame_output.
  assert (Hl : length (cubes (state (render_frame win32 inp s)))
               = length (cubes s)).
  { rewrite cubes_render_frame.
    destruct (animation_enabled s); [apply length_map | reflexivity]. }
  set (s1 := state (render_frame win32 inp s)) in *.
  assert (F : count is_vertex (output (render_fallback s1))
              = (24 * length (cubes s))%nat).
  { rewrite count_fallback by reflexivity.
    destruct (count_draw_cubes (cubes s1)) as (_ & ->). rewrite Hl.
    destruct (frame_count s1 mod 60 =? 0)%Z;
      rewrite ?count_cons, count_nil; cbn [is_vertex]; lia. }
  destruct (native_rendering_enabled s), (directx_initialized s);
    cbn [spec_render_path render_path_body]; try exact F.
  - rewrite render_native_output, count_app.
    destruct win32, (negb (d3d_context s1 =? 0)%Z && negb (swap_chain s1 =? 0)%Z),
      (negb (render_target inp =? 0)%Z), (negb (back_buffer inp =? 0)%Z),
      (frame_count s1 mod 60 =? 0)%Z; reflexivity.
  - rewrite render_pending_output.
    destruct (frame_count s1 mod 60 =? 0)%Z; reflexivity.
Qed.

(** X17.  The colour given to [set_clear_color] is the colour the next
    frame clears with.  If native rendering is not requested, the frame
    starts with [glClearColor r g b 1] followed by [glClear]; if the renderer
    is in native mode on a build with [_WIN32] and holds a context and a
    swap chain, the frame calls [ClearRenderTargetView] with
    [(r, g, b, 1)].  [set_clear_color] itself changes no other data
    member. *)
Theorem clear_color_reaches_frame (win32 : bool) (r g b : R)
    (inp : frame_inputs) (s : SimpleRenderer) :
  let s1 := state (set_clear_color r g b s) in
  s1 = set_clear_color_field (Float3 r g b) s /\
  (native_rendering_enabled s = false ->
     exists rest,
       output (render_frame win32 inp s1)
       = GL (glClearColor r g b 1) :: GL glClear :: rest) /\
  (native_rendering_enabled s = true -> directx_initialized s = true ->
   win32 = true -> d3d_context s <> 0%Z -> swap_chain s <> 0%Z ->
     In (D3D (ClearRenderTargetView r g b 1))
        (output (render_frame win32 inp s1))).
Proof.
  cbv zeta.
  change (state (set_clear_color r g b s))
    with (set_clear_color_field (Float3 r g b) s).
  set (s1 := set_clear_color_field (Float3 r g b) s).
  split; [reflexivity|].
  destruct (render_frame_same_device win32 inp s1)
    as (_ & _ & Hcc & _ & _ & _ & _ & _ & _ & _ & Hctx & Hsw).
  change (clear_color s1) with (Float3 r g b) in Hcc.
  change (d3d_context s1) with (d3d_context s) in Hctx.
  change (swap_chain s1) with (swap_chain s) in Hsw.
  split.
  - intros Hn. rewrite render_frame_output.
    change (native_rendering_enabled s1) with (native_rendering_enabled s).
    rewrite Hn. cbn [spec_render_path render_path_body].
    rewrite render_fallback_output, Hcc. cbn [at0 at1 at2].
    eexists. reflexivity.
  - intros Hn Hd -> Hc Hw. rewrite render_frame_output.
    change (native_rendering_enabled s1) with (native_rendering_enabled s).
    change (directx_initialized s1) with (directx_initialized s).
    rewrite Hn, Hd. cbn [spec_render_path render_path_body].
    rewrite render_native_output, Hcc, Hctx, Hsw. cbn [at0 at1 at2 andb].
    apply Z.eqb_neq in Hc, Hw. rewrite Hc, Hw. cbn [negb andb].
    apply in_or_app. left. apply in_or_app. left.
    cbn [In]. auto.
Qed.

(** X17 at a concrete input: a fresh renderer, which renders in fallback
    mode. *)
Lemma clear_color_reaches_frame_witness :
  let s := create_simple_renderer 32767 800 600 0 in
  native_rendering_enabled s = false /\
  exists rest,
    output (render_frame true (FrameInputs 0 1 0 0)
              (state (set_clear_color 0.2 0.3 0.4 s)))
    = GL (glClearColor 0.2 0.3 0.4 1) :: GL glClear :: rest.
Proof.
  cbv zeta.
  assert (H : native_rendering_enabled
                (create_simple_renderer 32767 800 600 0) = false)
    by reflexivity.
  split; [exact H|].
  exact (proj1 (proj2 (clear_color_reaches_frame true 0.2 0.3 0.4
                         (FrameInputs 0 1 0 0) _)) H).
Defined.

(** ** Moving objects, one call after another *)

Lemma alter_out_of_range {A : Type} (f : A -> A) (l : list A) (i : nat) :
  (length l <= i)%nat -> alter f i l = l.
Proof.
  revert i. induction l as [|a l IH]; intros i H; [reflexivity|].
  destruct i as [|i]; cbn in H; [lia|].
  cbn. f_equal. apply IH. lia.
Qed.

Lemma move_object_state (index : nat) (x y z : R) (s : SimpleRenderer) :
  state (move_object index x y z s)
  = set_cubes (alter (Cube.set_position x y z) index (cubes s)) s.
Proof.
  unfold move_object, when. rewrite bind_get.
  destruct (index <? length (cubes s))%nat eqn:E.
  - reflexivity.
  - apply Nat.ltb_ge in E. rewrite alter_out_of_range by exact E.
    destruct s; reflexivity.
Qed.

(** X18.  Moves compose as assignments do.  Moving the same object twice
    leaves the renderer as the second move alone would; moves of two
    different objects can be made in either order.  This holds for indices
    out of range too, where the moves do nothing. *)
Theorem move_object_composes (i j : nat) (x1 y1 z1 x2 y2 z2 : R)
    (s : SimpleRenderer) :
  state (move_object i x2 y2 z2 (state (move_object i x1 y1 z1 s)))
  = state (move_object i x2 y2 z2 s) /\
  (i <> j ->
     state (move_object j x2 y2 z2 (state (move_object i x1 y1 z1 s)))
     = state (move_object i x1 y1 z1 (state (move_object j x2 y2 z2 s)))).
Proof.
  rewrite !move_object_state. unfold set_cubes. fields. split.
  - f_equal. rewrite list_alter_alter_eq.
    apply list_alter_ext; [|reflexivity]. intros c _. reflexivity.
  - intros Hij. f_equal. apply list_alter_alter_ne. congruence.
Qed.

(** X18 at a concrete input: two cubes, moved in both orders. *)
Lemma move_object_composes_witness :
  let s := state (add_cube 32767 1 1 1 1 0
                    (create_simple_renderer 32767 800 600 0)) in
  0%nat <> 1%nat /\
  state (move_object 1 7 8 9 (state (move_object 0 4 5 6 s)))
  = state (move_object 0 4 5 6 (state (move_object 1 7 8 9 s))).
Proof.
  cbv zeta.
  assert (H : 0%nat <> 1%nat) by lia.
  split; [exact H|].
  exact (proj2 (move_object_composes 0 1 4 5 6 7 8 9 _) H).
Defined.

(** ** Without a window, without Direct3D *)

Lemma enable_native_rendering_no_device (win32 : bool) (d : d3d_create_result)
    (s : SimpleRenderer) :
  win32 = false \/ window_handle s = 0%Z ->
  initialize_d3d11 win32 d s
  = (false, s, if win32 then [Cout SayNoWindowHandle] else []) /\
  enable_native_rendering win32 d s
  = (tt, set_native_rendering_enabled false s,
     Cout SayNativeEnabled
     :: (if win32 then [Cout SayNoWindowHandle] else [])).
Proof.
  intros H.
  unfold enable_native_rendering, initialize_d3d11, bind, modify, get, cout,
    emit, ret.
  destruct win32; cbn [fst snd]; fields.
  - destruct H as [H|H]; [discriminate|]. rewrite H. cbn [Z.eqb fst snd].
    split; reflexivity.
  - split; reflexivity.
Qed.

(** X19.  Without a window handle, or on a build without [_WIN32], native
    rendering cannot be switched on and Direct3D is not involved at all:
    whatever the device creation would have returned,
    [initialize_d3d11] returns false and leaves the renderer as it is, and
    [enable_native_rendering] only leaves [native_rendering_enabled] false,
    so that the swap chain, device and context the renderer held, if any,
    are neither replaced nor released; with [_WIN32] the missing handle is
    reported on the console. *)
Theorem enable_needs_a_window (win32 : bool) (d : d3d_create_result)
    (s : SimpleRenderer) :
  win32 = false \/ window_handle s = 0%Z ->
  result (initialize_d3d11 win32 d s) = false /\
  state (initialize_d3d11 win32 d s) = s /\
  state (enable_native_rendering win32 d s)
  = set_native_rendering_enabled false s /\
  output (enable_native_rendering win32 d s)
  = Cout SayNativeEnabled :: (if win32 then [Cout SayNoWindowHandle] else []) /\
  forall d',
    enable_native_rendering win32 d' s = enable_native_rendering win32 d s.
Proof.
  intros H.
  destruct (enable_native_rendering_no_device win32 d s H) as (Hi & He).
  rewrite Hi, He. repeat split.
  intros d'.
  destruct (enable_native_rendering_no_device win32 d' s H) as (_ & He').
  exact He'.
Qed.

(** X19 at a concrete input: a fresh renderer has no window handle. *)
Lemma enable_needs_a_window_witness :
  let s := create_simple_renderer 32767 800 600 0 in
  (true = false \/ window_handle s = 0%Z) /\
  state (enable_native_rendering true (D3DCreate 0 1 2 3) s)
  = set_native_rendering_enabled false s.
Proof.
  cbv zeta.
  assert (H : true = false
              \/ window_handle (create_simple_renderer 32767 800 600 0) = 0%Z)
    by (right; reflexivity).
  split; [exact H|].
  exact (proj1 (proj2 (proj2
    (enable_needs_a_window true (D3DCreate 0 1 2 3) _ H)))).
Defined.

Lemma perform_without_win32 (RAND_MAX : Z) (c : call) (s : SimpleRenderer) :
  let s' := state (perform false RAND_MAX c s) in
  window_handle s' = window_handle s /\ swap_chain s' = swap_chain s /\
  d3d_context s' = d3d_context s /\ d3d_device s' = d3d_device s.
Proof.
  cbv zeta. destruct c; cbn [perform]; try (repeat split; reflexivity).
  - rewrite state_bind_ret.
    destruct (render_frame_same_device false inp s)
      as (_ & _ & _ & _ & _ & _ & _ & _ & Hw & Hd & Hc & Hs).
    auto.
  - destruct (update_animation_same_device delta_time s)
      as (_ & _ & _ & _ & _ & _ & _ & _ & Hw & Hd & Hc & Hs).
    auto.
  - rewrite move_object_state. repeat split; reflexivity.
Qed.

(** X20.  On a build without [_WIN32] the renderer never leaves fallback
    mode and never holds a Direct3D object: on every renderer a host can
    reach, the window handle, swap chain, context and device are null,
    both mode flags are false, the status is the fallback one, and the
    destructor writes its console line and releases nothing. *)
Theorem without_win32_always_fallback (RAND_MAX : Z) (s : SimpleRenderer) :
  reachable false RAND_MAX s ->
  (window_handle s = 0%Z /\ swap_chain s = 0%Z /\ d3d_context s = 0%Z /\
   d3d_device s = 0%Z) /\
  native_rendering_enabled s = false /\
  directx_initialized s = false /\
  get_renderer_info s = "OpenGL Fallback C++ Renderer"%string /\
  destructor false s = (tt, s, [Cout SayDestroyed]).
Proof.
  intros Hs.
  assert (P : window_handle s = 0%Z /\ swap_chain s = 0%Z /\
              d3d_context s = 0%Z /\ d3d_device s = 0%Z).
  { induction Hs as [w h r Hr | s c Hs IH Hc].
    - repeat split; reflexivity.
    - destruct (perform_without_win32 RAND_MAX c s) as (-> & -> & -> & ->).
      exact IH. }
  destruct (reachable_requested_ready false RAND_MAX s Hs) as (H1 & H2).
  assert (Hd : directx_initialized s = false).
  { destruct (directx_initialized s); [|reflexivity].
    specialize (H2 eq_refl). discriminate. }
  assert (Hn : native_rendering_enabled s = false).
  { destruct (native_rendering_enabled s); [|reflexivity].
    rewrite (H1 eq_refl) in Hd. discriminate. }
  split; [exact P|]. split; [exact Hn|]. split; [exact Hd|]. split.
  - unfold get_renderer_info. rewrite Hn. reflexivity.
  - reflexivity.
Qed.

(** X20 at a concrete input: a handle is offered and native rendering is
    asked for, to no effect. *)
Lemma without_win32_always_fallback_witness :
  let s := perform_all false 32767
             [SetWindowHandle 4242; EnableNativeRendering (D3DCreate 0 1 2 3)]
             (create_simple_renderer 32767 800 600 0) in
  reachable false 32767 s /\
  get_renderer_info s = "OpenGL Fallback C++ Renderer"%string.
Proof.
  cbv zeta.
  assert (H : reachable false 32767
    (perform_all false 32767
       [SetWindowHandle 4242; EnableNativeRendering (D3DCreate 0 1 2 3)]
       (create_simple_renderer 32767 800 600 0))).
  { cbn [perform_all].
    apply reachable_call; [|exact I].
    apply reachable_call; [|exact I].
    apply reachable_create. unfold rand_value. lia. }
  split; [exact H|].
  exact (proj1 (proj2 (proj2 (proj2
    (without_win32_always_fallback 32767 _ H))))).
Defined.

(** ** What frames never touch, and steps back in time *)

(** X21.  Rendering changes the animation only: after any number of frames
    the width and height, the clear colour, the two mode flags, the
    animation switch, the camera distance and height, the window handle and
    the three Direct3D objects are what they were; and a frame changes the
    cubes, the camera angle and the animation clock exactly as a direct
    [update_animation] with the measured [delta_time] does, or not at all
    when animation is off. *)
Theorem frames_change_animation_only (win32 : bool)
    (inps : list frame_inputs) (s : SimpleRenderer) :
  same_device s (render_frames win32 inps s) /\
  forall inp,
    let s' := state (render_frame win32 inp s) in
    let u := state (update_animation (frame_delta_time inp s) s) in
    if animation_enabled s then
      cubes s' = cubes u /\ camera_orbit_angle s' = camera_orbit_angle u /\
      animation_time s' = animation_time u
    else
      cubes s' = cubes s /\ camera_orbit_angle s' = camera_orbit_angle s /\
      animation_time s' = animation_time s.
Proof.
  split.
  - revert s. induction inps as [|inp inps IH]; intros s; cbn [render_frames].
    + unfold same_device. repeat split; reflexivity.
    + pose proof (IH (state (render_frame win32 inp s))) as H2.
      pose proof (render_frame_same_device win32 inp s) as H1.
      unfold same_device in *.
      destruct H1 as (-> & -> & -> & -> & -> & -> & -> & -> & -> & -> & -> & ->)
        in H2.
      exact H2.
  - intros inp. cbv zeta. rewrite render_frame_state_explicit. cbv zeta.
    destruct (animation_enabled s).
    + unfold state. rewrite !update_animation_run. fields.
      repeat split; reflexivity.
    + fields. repeat split; reflexivity.
Qed.


